(** * runner/models.py: the record schema of the behavioural-session database

    A shallow embedding of the derived-value accessors of [src/runner/models.py]
    (paired window-position properties of [Box], the water summaries, the
    performance displays and the label of [Session], the field table of
    [Mouse]) together with the fragment of the Python runtime they rely on:
    truthiness, subscripting, [int * x], and ['%.Nf' % x].

    Conventions.
    - Python text is a list of Unicode code points ([pystr]); [u "abc"] is the
      text of an ASCII literal.
    - A Python [float] is an IEEE-754 binary64 number, i.e. Rocq's primitive
      [float]; products are the hardware products.
    - The semantics followed is that of Python 3 (['%f'] always prints in
      fixed notation, [str] of a text is that text). *)

From Stdlib Require Import String Ascii ZArith List Bool Lia.
From Stdlib Require Import Floats.
Import ListNotations.

Set Implicit Arguments.

(** ** The Python runtime fragment used by the models *)
Module Py.

(** Text: a sequence of code points. *)
Definition pystr := list N.

Definition u (s : string) : pystr :=
  List.map N_of_ascii (list_ascii_of_string s).

(** [\N{GREEK SMALL LETTER MU}] is U+03BC; the compatibility character
    MICRO SIGN is U+00B5.  They are different code points. *)
Definition GREEK_SMALL_LETTER_MU : N := 956.
Definition MICRO_SIGN : N := 181.

(** Exceptions the accessors can meet. *)
Inductive exn : Type :=
| TypeError
| IndexError
| AttributeError (attr : string)
| OverflowError.

(** Outcome of evaluating an expression: a value, or a raised exception. *)
Inductive result (A : Type) : Type :=
| Ok (a : A)
| Raise (e : exn).
Arguments Ok {A} a.
Arguments Raise {A} e.

Definition bind {A B} (m : result A) (k : A -> result B) : result B :=
  match m with
  | Ok a => k a
  | Raise e => Raise e
  end.

(** [try: body / except: handler] with a bare [except]. *)
Definition try_except {A} (body : result A) (handler : A) : A :=
  match body with
  | Ok a => a
  | Raise _ => handler
  end.

Declare Scope py_scope.
Delimit Scope py_scope with py.
Notation "x <- m ;; k" := (bind m (fun x => k))
  (at level 61, m at next level, right associativity) : py_scope.
Open Scope py_scope.

(** Python values that the model fields can hold. [VInstance] is a plain
    model instance seen through its attribute dictionary; it defines no
    [__len__], [__bool__], [__getitem__], [__float__] or [__rmul__]. *)
#[warnings="-register-all"]
Inductive value : Type :=
| VNone
| VBool (b : bool)
| VInt (n : Z)
| VFloat (f : float)
| VStr (s : pystr)
| VTuple (items : list value)
| VList (items : list value)
| VInstance (cls : string) (attrs : list (string * value)).

(** [bool(v)], as used by [if v:]. A float is false exactly when it compares
    equal to zero (so [-0.0] is false and [nan] is true). *)
Definition truthy (v : value) : bool :=
  match v with
  | VNone => false
  | VBool b => b
  | VInt n => negb (n =? 0)%Z
  | VFloat f => negb (f =? 0)%float
  | VStr s => negb (Nat.eqb (length s) 0)
  | VTuple l | VList l => negb (Nat.eqb (length l) 0)
  | VInstance _ _ => true
  end.

(** Numbers are [bool], [int] and [float]. *)
Definition is_numeric (v : value) : bool :=
  match v with
  | VBool _ | VInt _ | VFloat _ => true
  | _ => false
  end.

(** Sequences are [str], [tuple] and [list]; [len_seq] is [len]. *)
Definition len_seq (v : value) : option nat :=
  match v with
  | VStr s => Some (length s)
  | VTuple l | VList l => Some (length l)
  | _ => None
  end.

(** [obj[i]] for a non-negative literal index [i]. *)
Definition getitem (obj : value) (i : nat) : result value :=
  match obj with
  | VTuple l | VList l =>
      match nth_error l i with
      | Some v => Ok v
      | None => Raise IndexError
      end
  | VStr s =>
      match nth_error s i with
      | Some c => Ok (VStr [c])
      | None => Raise IndexError
      end
  | VNone | VBool _ | VInt _ | VFloat _ | VInstance _ _ => Raise TypeError
  end.

Fixpoint assoc (k : string) (d : list (string * value)) : option value :=
  match d with
  | [] => None
  | (k', v) :: d' => if String.eqb k k' then Some v else assoc k d'
  end.

(** [obj.attr] on a value: only instances carry attributes of interest. *)
Definition getattr (obj : value) (attr : string) : result value :=
  match obj with
  | VInstance _ attrs =>
      match assoc attr attrs with
      | Some v => Ok v
      | None => Raise (AttributeError attr)
      end
  | _ => Raise (AttributeError attr)
  end.

(** [float(n)] for an [int]: round to nearest even, [OverflowError] when
    the result does not fit a binary64. *)
Definition float_of_int (n : Z) : result float :=
  match binary_normalize prec emax n 0 false with
  | S754_infinity _ => Raise OverflowError
  | sf => Ok (SF2Prim sf)
  end.

Definition repeat_seq {A} (n : Z) (l : list A) : list A :=
  List.concat (List.repeat l (Z.to_nat n)).

(** [n * v] for an [int] literal [n]. *)
Definition mul_int (n : Z) (v : value) : result value :=
  match v with
  | VBool b => Ok (VInt (n * (if b then 1 else 0)))
  | VInt m => Ok (VInt (n * m))
  | VFloat f => nf <- float_of_int n ;; Ok (VFloat (nf * f)%float)
  | VStr s => Ok (VStr (repeat_seq n s))
  | VTuple l => Ok (VTuple (repeat_seq n l))
  | VList l => Ok (VList (repeat_seq n l))
  | VNone | VInstance _ _ => Raise TypeError
  end.

(** *** Fixed-point rendering of a float: ['%.Nf'] *)

Fixpoint digits_of_uint (d : Decimal.uint) : pystr :=
  match d with
  | Decimal.Nil => []
  | Decimal.D0 d => 48%N :: digits_of_uint d
  | Decimal.D1 d => 49%N :: digits_of_uint d
  | Decimal.D2 d => 50%N :: digits_of_uint d
  | Decimal.D3 d => 51%N :: digits_of_uint d
  | Decimal.D4 d => 52%N :: digits_of_uint d
  | Decimal.D5 d => 53%N :: digits_of_uint d
  | Decimal.D6 d => 54%N :: digits_of_uint d
  | Decimal.D7 d => 55%N :: digits_of_uint d
  | Decimal.D8 d => 56%N :: digits_of_uint d
  | Decimal.D9 d => 57%N :: digits_of_uint d
  end.

(** Decimal digits of a non-negative integer, most significant first. *)
Definition digits (n : Z) : pystr := digits_of_uint (N.to_uint (Z.to_N n)).

(** [n / 10^p] printed with exactly [p] digits after the point (and no
    point when [p = 0]). *)
Definition fixed (p : nat) (n : Z) : pystr :=
  let ds := digits n in
  let ds := List.repeat 48%N (S p - length ds) ++ ds in
  let k := (length ds - p)%nat in
  firstn k ds ++ (if Nat.eqb p 0 then [] else 46%N :: skipn k ds).

(** Nearest integer to [num / den] ([den > 0]), ties to even. *)
Definition round_half_even (num den : Z) : Z :=
  let q := (num / den)%Z in
  let r := (num mod den)%Z in
  match (2 * r ?= den)%Z with
  | Lt => q
  | Gt => (q + 1)%Z
  | Eq => if Z.even q then q else (q + 1)%Z
  end.

Definition sign_prefix (s : bool) : pystr := if s then u "-" else [].

(** ['%.pf' % x]: the decimal expansion of the exact binary value of [x],
    correctly rounded to [p] places. *)
Definition format_f (p : nat) (x : float) : pystr :=
  match Prim2SF x with
  | S754_nan => u "nan"
  | S754_infinity s => sign_prefix s ++ u "inf"
  | S754_zero s => sign_prefix s ++ fixed p 0
  | S754_finite s m e =>
      let scale := (10 ^ Z.of_nat p)%Z in
      let n := match e with
               | Z.neg k => round_half_even (Z.pos m * scale) (2 ^ Z.pos k)
               | _ => (Z.pos m * 2 ^ e * scale)%Z
               end in
      sign_prefix s ++ fixed p n
  end.

(** The number consumed by a [%f] conversion. *)
Definition as_float (v : value) : result float :=
  match v with
  | VFloat f => Ok f
  | VInt n => float_of_int n
  | VBool b => Ok (if b then 1 else 0)%float
  | _ => Raise TypeError
  end.

(** [(pre + '%.pf' + post) % arg]: a format with one [%f] conversion. A
    tuple on the right is the argument pack and must hold one number. *)
Definition percent_f (pre : pystr) (p : nat) (post : pystr) (arg : value)
  : result pystr :=
  x <- match arg with
       | VTuple [a] => as_float a
       | VTuple _ => Raise TypeError
       | a => as_float a
       end ;;
  Ok (pre ++ format_f p x ++ post).

End Py.

Import Py.

(** ** [class Box]: hardware info about individual boxes *)
Module Box.

(** The declared fields (source lines 42-58) hold arbitrary Python values:
    nothing coerces an attribute on assignment.  [other_attrs] is the rest of
    the instance dictionary, that is whatever attribute was attached to the
    instance besides the declared fields. *)
Record t : Type := {
  name : value;
  l_reward_duration : value;
  r_reward_duration : value;
  serial_port : value;
  video_device : value;
  video_window_position_x : value;
  video_window_position_y : value;
  gui_window_position_x : value;
  gui_window_position_y : value;
  window_position_IR_plot_x : value;
  window_position_IR_plot_y : value;
  subprocess_window_ypos : value;
  video_brightness : value;
  video_gain : value;
  video_exposure : value;
  other_attrs : list (string * value)
}.

(** The instance dictionary: declared fields first, then the rest. *)
Definition __dict__ (self : t) : list (string * value) :=
  [ ("name", name self);
    ("l_reward_duration", l_reward_duration self);
    ("r_reward_duration", r_reward_duration self);
    ("serial_port", serial_port self);
    ("video_device", video_device self);
    ("video_window_position_x", video_window_position_x self);
    ("video_window_position_y", video_window_position_y self);
    ("gui_window_position_x", gui_window_position_x self);
    ("gui_window_position_y", gui_window_position_y self);
    ("window_position_IR_plot_x", window_position_IR_plot_x self);
    ("window_position_IR_plot_y", window_position_IR_plot_y self);
    ("subprocess_window_ypos", subprocess_window_ypos self);
    ("video_brightness", video_brightness self);
    ("video_gain", video_gain self);
    ("video_exposure", video_exposure self) ]%string
  ++ other_attrs self.

(** [self.attr] for a name that the class body does not define as a
    property or a method (a field, or a name such as [session_list]): the
    entry of the instance dictionary, [AttributeError] when there is none. *)
Definition getattr (self : t) (attr : string) : result value :=
  match assoc attr (__dict__ self) with
  | Some v => Ok v
  | None => Raise (AttributeError attr)
  end.

(** *** Methods that mutate [self]

    A method body is run from an instance and yields its outcome together
    with the instance as the body left it: an assignment made before an
    exception is raised stays made. *)
Definition M (A : Type) : Type := t -> result A * t.

Definition eval {A} (r : result A) : M A := fun self => (r, self).

Definition bindM {A B} (m : M A) (k : A -> M B) : M B :=
  fun self =>
    match m self with
    | (Ok a, self') => k a self'
    | (Raise e, self') => (Raise e, self')
    end.

Notation "x <~ m ;; k" := (bindM m (fun x => k))
  (at level 61, m at next level, right associativity).
Notation "m ;;; k" := (bindM m (fun _ => k))
  (at level 61, right associativity).

(** [self.<field> = v] for the six backing fields. *)
Definition set_video_window_position_x (v : value) : M unit := fun self =>
  (Ok tt,
   {| name := name self;
      l_reward_duration := l_reward_duration self;
      r_reward_duration := r_reward_duration self;
      serial_port := serial_port self;
      video_device := video_device self;
      video_window_position_x := v;
      video_window_position_y := video_window_position_y self;
      gui_window_position_x := gui_window_position_x self;
      gui_window_position_y := gui_window_position_y self;
      window_position_IR_plot_x := window_position_IR_plot_x self;
      window_position_IR_plot_y := window_position_IR_plot_y self;
      subprocess_window_ypos := subprocess_window_ypos self;
      video_brightness := video_brightness self;
      video_gain := video_gain self;
      video_exposure := video_exposure self;
      other_attrs := other_attrs self |}).

Definition set_video_window_position_y (v : value) : M unit := fun self =>
  (Ok tt,
   {| name := name self;
      l_reward_duration := l_reward_duration self;
      r_reward_duration := r_reward_duration self;
      serial_port := serial_port self;
      video_device := video_device self;
      video_window_position_x := video_window_position_x self;
      video_window_position_y := v;
      gui_window_position_x := gui_window_position_x self;
      gui_window_position_y := gui_window_position_y self;
      window_position_IR_plot_x := window_position_IR_plot_x self;
      window_position_IR_plot_y := window_position_IR_plot_y self;
      subprocess_window_ypos := subprocess_window_ypos self;
      video_brightness := video_brightness self;
      video_gain := video_gain self;
      video_exposure := video_exposure self;
      other_attrs := other_attrs self |}).

Definition set_gui_window_position_x (v : value) : M unit := fun self =>
  (Ok tt,
   {| name := name self;
      l_reward_duration := l_reward_duration self;
      r_reward_duration := r_reward_duration self;
      serial_port := serial_port self;
      video_device := video_device self;
      video_window_position_x := video_window_position_x self;
      video_window_position_y := video_window_position_y self;
      gui_window_position_x := v;
      gui_window_position_y := gui_window_position_y self;
      window_position_IR_plot_x := window_position_IR_plot_x self;
      window_position_IR_plot_y := window_position_IR_plot_y self;
      subprocess_window_ypos := subprocess_window_ypos self;
      video_brightness := video_brightness self;
      video_gain := video_gain self;
      video_exposure := video_exposure self;
      other_attrs := other_attrs self |}).

Definition set_gui_window_position_y (v : value) : M unit := fun self =>
  (Ok tt,
   {| name := name self;
      l_reward_duration := l_reward_duration self;
      r_reward_duration := r_reward_duration self;
      serial_port := serial_port self;
      video_device := video_device self;
      video_window_position_x := video_window_position_x self;
      video_window_position_y := video_window_position_y self;
      gui_window_position_x := gui_window_position_x self;
      gui_window_position_y := v;
      window_position_IR_plot_x := window_position_IR_plot_x self;
      window_position_IR_plot_y := window_position_IR_plot_y self;
      subprocess_window_ypos := subprocess_window_ypos self;
      video_brightness := video_brightness self;
      video_gain := video_gain self;
      video_exposure := video_exposure self;
      other_attrs := other_attrs self |}).

Definition set_window_position_IR_plot_x (v : value) : M unit := fun self =>
  (Ok tt,
   {| name := name self;
      l_reward_duration := l_reward_duration self;
      r_reward_duration := r_reward_duration self;
      serial_port := serial_port self;
      video_device := video_device self;
      video_window_position_x := video_window_position_x self;
      video_window_position_y := video_window_position_y self;
      gui_window_position_x := gui_window_position_x self;
      gui_window_position_y := gui_window_position_y self;
      window_position_IR_plot_x := v;
      window_position_IR_plot_y := window_position_IR_plot_y self;
      subprocess_window_ypos := subprocess_window_ypos self;
      video_brightness := video_brightness self;
      video_gain := video_gain self;
      video_exposure := video_exposure self;
      other_attrs := other_attrs self |}).

Definition set_window_position_IR_plot_y (v : value) : M unit := fun self =>
  (Ok tt,
   {| name := name self;
      l_reward_duration := l_reward_duration self;
      r_reward_duration := r_reward_duration self;
      serial_port := serial_port self;
      video_device := video_device self;
      video_window_position_x := video_window_position_x self;
      video_window_position_y := video_window_position_y self;
      gui_window_position_x := gui_window_position_x self;
      gui_window_position_y := gui_window_position_y self;
      window_position_IR_plot_x := window_position_IR_plot_x self;
      window_position_IR_plot_y := v;
      subprocess_window_ypos := subprocess_window_ypos self;
      video_brightness := video_brightness self;
      video_gain := video_gain self;
      video_exposure := video_exposure self;
      other_attrs := other_attrs self |}).

(** *** The paired window-position properties (source lines 60-82) *)

Definition video_window_position (self : t) : value :=
  VTuple [video_window_position_x self; video_window_position_y self].

Definition video_window_position_setter (obj : value) : M unit :=
  x <~ eval (getitem obj 0) ;;
  set_video_window_position_x x ;;;
  y <~ eval (getitem obj 1) ;;
  set_video_window_position_y y.

Definition gui_window_position (self : t) : value :=
  VTuple [gui_window_position_x self; gui_window_position_y self].

Definition gui_window_position_setter (obj : value) : M unit :=
  x <~ eval (getitem obj 0) ;;
  set_gui_window_position_x x ;;;
  y <~ eval (getitem obj 1) ;;
  set_gui_window_position_y y.

Definition window_position_IR_plot (self : t) : value :=
  VTuple [window_position_IR_plot_x self; window_position_IR_plot_y self].

Definition window_position_IR_plot_setter (obj : value) : M unit :=
  x <~ eval (getitem obj 0) ;;
  set_window_position_IR_plot_x x ;;;
  y <~ eval (getitem obj 1) ;;
  set_window_position_IR_plot_y y.

(** [mean_water_consumed] (source lines 84-87):
    [return self.session_list[0].name]. *)
Definition mean_water_consumed (self : t) : result value :=
  session_list <- getattr self "session_list" ;;
  first <- getitem session_list 0 ;;
  Py.getattr first "name".

End Box.

(** ** [class Session]: info about a single behavioral session *)
Module Session.

(** [name] is the text primary key: a text, or [None] when never assigned
    (its [str] is not modelled for other objects).  The other attributes hold
    arbitrary Python values. *)
Record t : Type := {
  name : option pystr;
  mouse : value;
  logfile : value;
  board : value;
  box : value;
  serial_port : value;
  autosketch_path : value;
  script_path : value;
  sandbox : value;
  python_param_scheduler_name : value;
  python_param_stimulus_set : value;
  irl_param_stimulus_arm : value;
  date_time_start : value;
  date_time_stop : value;
  user_data_water_pipe_position_start : value;
  user_data_water_pipe_position_stop : value;
  user_data_left_water_consumption : value;
  user_data_right_water_consumption : value;
  user_data_left_valve_mean : value;
  user_data_right_valve_mean : value;
  user_data_left_perf : value;
  user_data_right_perf : value;
  user_data_bias_summary : value;
  user_data_weight : value
}.

(** A text-or-[None] attribute as a Python value, and its [str()]. *)
Definition text_value (o : option pystr) : value :=
  match o with
  | Some s => VStr s
  | None => VNone
  end.

Definition str_of_text (o : option pystr) : pystr :=
  match o with
  | Some s => s
  | None => u "None"
  end.

(** [__str__] (source lines 196-200). *)
Definition __str__ (self : t) : pystr :=
  if truthy (text_value (name self))
  then str_of_text (name self)
  else u "Unstarted".

(** The text after the conversion in [u' @%0.1f \N{GREEK SMALL LETTER MU}L']. *)
Definition microlitre_suffix : pystr := u " " ++ [GREEK_SMALL_LETTER_MU] ++ u "L".

(** [left_valve_summary] (source lines 202-209). *)
Definition left_valve_summary (self : t) : result pystr :=
  let res := [] in
  res <- (if truthy (user_data_left_water_consumption self)
          then s <- percent_f [] 2 [] (user_data_left_water_consumption self) ;;
               Ok (res ++ s)
          else Ok res) ;;
  res <- (if truthy (user_data_left_valve_mean self)
          then x <- mul_int 1000 (user_data_left_valve_mean self) ;;
               s <- percent_f (u " @") 1 microlitre_suffix x ;;
               Ok (res ++ s)
          else Ok res) ;;
  Ok res.

(** [right_valve_summary] (source lines 212-219). *)
Definition right_valve_summary (self : t) : result pystr :=
  let res := [] in
  res <- (if truthy (user_data_right_water_consumption self)
          then s <- percent_f [] 2 [] (user_data_right_water_consumption self) ;;
               Ok (res ++ s)
          else Ok res) ;;
  res <- (if truthy (user_data_right_valve_mean self)
          then x <- mul_int 1000 (user_data_right_valve_mean self) ;;
               s <- percent_f (u " @") 1 microlitre_suffix x ;;
               Ok (res ++ s)
          else Ok res) ;;
  Ok res.

(** [display_left_perf] (source lines 222-226). *)
Definition display_left_perf (self : t) : pystr :=
  try_except
    (x <- mul_int 100 (user_data_left_perf self) ;; percent_f [] 0 [] x)
    (u "NA").

(** [display_right_perf] (source lines 229-233). *)
Definition display_right_perf (self : t) : pystr :=
  try_except
    (x <- mul_int 100 (user_data_right_perf self) ;; percent_f [] 0 [] x)
    (u "NA").

End Session.

(** ** [class Mouse] *)
Module Mouse.

(** The declared fields (source lines 22-35). *)
Inductive field : Type :=
| name
| stimulus_set
| step_first_rotation
| timeout
| scheduler
| max_rewards_per_trial
| protocol_name
| script_name
| default_board
| default_box.

Definition fields : list field :=
  [ name; stimulus_set; step_first_rotation; timeout; scheduler;
    max_rewards_per_trial; protocol_name; script_name; default_board;
    default_box ].

Definition field_eqb (f g : field) : bool :=
  match f, g with
  | name, name | stimulus_set, stimulus_set
  | step_first_rotation, step_first_rotation | timeout, timeout
  | scheduler, scheduler | max_rewards_per_trial, max_rewards_per_trial
  | protocol_name, protocol_name | script_name, script_name
  | default_board, default_board | default_box, default_box => true
  | _, _ => false
  end.

Inductive kind : Type :=
| CharField (max_length : nat)
| IntegerField.

(** What a field declaration says: its kind and the options it passes. *)
Record declaration : Type := {
  field_kind : kind;
  null : bool;
  blank : bool;
  default : option value
}.

Definition declared (f : field) : declaration :=
  match f with
  | name => {| field_kind := CharField 20; null := false; blank := false; default := None |}
  | stimulus_set => {| field_kind := CharField 50; null := false; blank := false; default := None |}
  | step_first_rotation => {| field_kind := IntegerField; null := false; blank := false; default := None |}
  | timeout => {| field_kind := IntegerField; null := true; blank := true; default := None |}
  | scheduler => {| field_kind := CharField 50; null := false; blank := false; default := None |}
  | max_rewards_per_trial => {| field_kind := IntegerField; null := false; blank := false; default := Some (VInt 1) |}
  | protocol_name => {| field_kind := CharField 50; null := false; blank := false; default := None |}
  | script_name => {| field_kind := CharField 50; null := false; blank := false; default := None |}
  | default_board => {| field_kind := CharField 50; null := true; blank := true; default := None |}
  | default_box => {| field_kind := CharField 50; null := true; blank := true; default := None |}
  end.

(** An instance gives every declared field a value. *)
Definition t : Type := field -> value.

(** Keyword arguments of a construction. *)
Definition kwargs : Type := list (field * value).

Fixpoint lookup (f : field) (kw : kwargs) : option value :=
  match kw with
  | [] => None
  | (g, v) :: kw' => if field_eqb f g then Some v else lookup f kw'
  end.

(** A creation either yields an instance or a validation error that names
    the offending fields. *)
Inductive creation : Type :=
| Created (m : t)
| ValidationError (missing : list field).

(** The values that stand for "nothing given". *)
Definition is_empty (v : value) : bool :=
  match v with
  | VNone => true
  | VStr [] | VTuple [] | VList [] => true
  | _ => false
  end.

(** A field is optional when its declaration allows it to be left blank;
    the three optional fields of the table are also the nullable ones. *)
Definition optional (f : field) : bool := blank (declared f).

(** Modelled from the spec: the construction and validation of an instance,
    which is the work of the object-relational layer that the source imports
    as [django.db.models] and does not define.  Following the validation
    rules of the record schema module: a field takes the value given for it,
    else its declared default, else null when it is nullable (or cannot hold
    the empty text) and the empty text otherwise; optional fields may stay
    empty, all others are required at creation, and a missing required field
    is a validation error naming that field. *)
Definition initial (kw : kwargs) (f : field) : value :=
  match lookup f kw with
  | Some v => v
  | None =>
      match default (declared f) with
      | Some d => d
      | None =>
          match field_kind (declared f) with
          | IntegerField => VNone
          | CharField _ => if null (declared f) then VNone else VStr []
          end
      end
  end.

(** Modelled from the spec: a required field is missing when the value it
    ends up with is empty. *)
Definition missing (kw : kwargs) (f : field) : bool :=
  negb (optional f) && is_empty (initial kw f).

(** Modelled from the spec: creation of a Mouse from keyword arguments, as
    ruled by [initial] and [missing]. *)
Definition create (kw : kwargs) : creation :=
  match List.filter (missing kw) fields with
  | [] => Created (initial kw)
  | errs => ValidationError errs
  end.

End Mouse.

(** ** The declared columns of the six models

    Every field declaration of the module, with the options it passes; an
    option that a declaration does not pass is recorded as [false] (or
    [None]). *)
Module Schema.

Inductive field_class : Type :=
| CharField (max_length : nat)
| IntegerField
| FloatField
| BooleanField
| NullBooleanField
| DateTimeField
| ForeignKey (to : string).

Record column : Type := {
  attname : string;
  class : field_class;
  null : bool;
  blank : bool;
  default : option Z;
  primary_key : bool;
  verbose_name : option string
}.

(** A declaration that passes [null] and [blank] and nothing else. *)
Definition col (a : string) (c : field_class) (n b : bool) : column :=
  {| attname := a; class := c; null := n; blank := b;
     default := None; primary_key := false; verbose_name := None |}.

Definition with_default (d : Z) (c : column) : column :=
  {| attname := attname c; class := class c; null := null c; blank := blank c;
     default := Some d; primary_key := primary_key c;
     verbose_name := verbose_name c |}.

Definition as_primary_key (c : column) : column :=
  {| attname := attname c; class := class c; null := null c; blank := blank c;
     default := default c; primary_key := true;
     verbose_name := verbose_name c |}.

Definition with_verbose_name (v : string) (c : column) : column :=
  {| attname := attname c; class := class c; null := null c; blank := blank c;
     default := default c; primary_key := primary_key c;
     verbose_name := Some v |}.

(** [class Mouse] (source lines 22-35). *)
Definition Mouse : list column :=
  [ col "name" (CharField 20) false false;
    col "stimulus_set" (CharField 50) false false;
    col "step_first_rotation" IntegerField false false;
    col "timeout" IntegerField true true;
    col "scheduler" (CharField 50) false false;
    with_default 1 (col "max_rewards_per_trial" IntegerField false false);
    col "protocol_name" (CharField 50) false false;
    col "script_name" (CharField 50) false false;
    col "default_board" (CharField 50) true true;
    col "default_box" (CharField 50) true true ]%string.

(** [class Box] (source lines 42-58). *)
Definition Box : list column :=
  [ col "name" (CharField 20) false false;
    col "l_reward_duration" IntegerField false false;
    col "r_reward_duration" IntegerField true true;
    col "serial_port" (CharField 20) false false;
    col "video_device" (CharField 20) true true;
    col "video_window_position_x" IntegerField true true;
    col "video_window_position_y" IntegerField true true;
    col "gui_window_position_x" IntegerField true true;
    col "gui_window_position_y" IntegerField true true;
    col "window_position_IR_plot_x" IntegerField true true;
    col "window_position_IR_plot_y" IntegerField true true;
    col "subprocess_window_ypos" IntegerField true true;
    col "video_brightness" IntegerField true true;
    col "video_gain" IntegerField true true;
    col "video_exposure" IntegerField true true ]%string.

(** [class Board] (source lines 97-112). *)
Definition Board : list column :=
  [ col "name" (CharField 20) false false;
    col "has_side_HE_sensor" BooleanField false false;
    col "l_ir_detector_thresh" IntegerField true true;
    col "r_ir_detector_thresh" IntegerField true true;
    col "use_ir_detector" NullBooleanField false false;
    col "stepper_driver" (CharField 10) true true;
    col "side_HE_sensor_thresh" (CharField 10) true true;
    col "microstep" (CharField 10) true true;
    col "invert_stepper_direction" (CharField 10) true true ]%string.

(** [class ArduinoProtocol] (source lines 122-123). *)
Definition ArduinoProtocol : list column :=
  [ col "name" (CharField 20) false false;
    col "path" (CharField 100) false false ]%string.

(** [class PythonProtocol] (source lines 130-131). *)
Definition PythonProtocol : list column :=
  [ col "name" (CharField 20) false false;
    col "path" (CharField 100) false false ]%string.

(** [class Session] (source lines 139-194). *)
Definition Session : list column :=
  [ as_primary_key (col "name" (CharField 200) false false);
    col "mouse" (ForeignKey "Mouse") false false;
    col "logfile" (CharField 200) false false;
    col "board" (ForeignKey "Board") true true;
    col "box" (ForeignKey "Box") true true;
    col "serial_port" (CharField 50) true true;
    col "autosketch_path" (CharField 200) false false;
    col "script_path" (CharField 200) false false;
    col "sandbox" (CharField 200) false false;
    with_verbose_name "Scheduler"
      (col "python_param_scheduler_name" (CharField 100) true true);
    with_verbose_name "StimSet"
      (col "python_param_stimulus_set" (CharField 100) true true);
    with_verbose_name "StimArm"
      (col "irl_param_stimulus_arm" (CharField 100) true true);
    with_verbose_name "Start" (col "date_time_start" DateTimeField true true);
    with_verbose_name "Stop" (col "date_time_stop" DateTimeField true true);
    with_verbose_name "Pipe Start"
      (col "user_data_water_pipe_position_start" FloatField true true);
    with_verbose_name "Pipe Stop"
      (col "user_data_water_pipe_position_stop" FloatField true true);
    col "user_data_left_water_consumption" FloatField true true;
    col "user_data_right_water_consumption" FloatField true true;
    col "user_data_left_valve_mean" FloatField true true;
    col "user_data_right_valve_mean" FloatField true true;
    with_verbose_name "L perf" (col "user_data_left_perf" FloatField true true);
    with_verbose_name "R perf" (col "user_data_right_perf" FloatField true true);
    with_verbose_name "Bias"
      (col "user_data_bias_summary" (CharField 100) true true);
    with_verbose_name "Weight" (col "user_data_weight" FloatField true true)
  ]%string.

Definition models : list (string * list column) :=
  [ ("Mouse", Mouse); ("Box", Box); ("Board", Board);
    ("ArduinoProtocol", ArduinoProtocol); ("PythonProtocol", PythonProtocol);
    ("Session", Session) ]%string.

(** The model a foreign key points to is declared earlier in the module. *)
Fixpoint declared_before (target : string) (m : string)
    (ms : list (string * list column)) : bool :=
  match ms with
  | [] => false
  | (m', _) :: ms' =>
      if String.eqb m' m then false
      else if String.eqb m' target then true
      else declared_before target m ms'
  end.

End Schema.

(** ** Concrete instances used to exercise the statements *)

(** The binary64 numbers that the literals [0.03] and [0.873] denote. *)
Definition float_0_03 : float := 0x1.eb851eb851eb8p-6.
Definition float_0_873 : float := 0x1.bef9db22d0e56p-1.

(** A Box on which nothing is set. *)
Definition unset_box : Box.t :=
  {| Box.name := VNone;
     Box.l_reward_duration := VNone;
     Box.r_reward_duration := VNone;
     Box.serial_port := VNone;
     Box.video_device := VNone;
     Box.video_window_position_x := VNone;
     Box.video_window_position_y := VNone;
     Box.gui_window_position_x := VNone;
     Box.gui_window_position_y := VNone;
     Box.window_position_IR_plot_x := VNone;
     Box.window_position_IR_plot_y := VNone;
     Box.subprocess_window_ypos := VNone;
     Box.video_brightness := VNone;
     Box.video_gain := VNone;
     Box.video_exposure := VNone;
     Box.other_attrs := [] |}.

(** A configured Box, with a reverse list of sessions attached by hand. *)
Definition rig_box : Box.t :=
  {| Box.name := VStr (u "CR1");
     Box.l_reward_duration := VInt 45;
     Box.r_reward_duration := VInt 50;
     Box.serial_port := VStr (u "/dev/ttyACM0");
     Box.video_device := VStr (u "/dev/video0");
     Box.video_window_position_x := VInt 500;
     Box.video_window_position_y := VInt 0;
     Box.gui_window_position_x := VInt 700;
     Box.gui_window_position_y := VInt 0;
     Box.window_position_IR_plot_x := VInt 2000;
     Box.window_position_IR_plot_y := VInt 0;
     Box.subprocess_window_ypos := VInt 270;
     Box.video_brightness := VNone;
     Box.video_gain := VNone;
     Box.video_exposure := VNone;
     Box.other_attrs :=
       [ ("session_list"%string,
          VList [ VInstance "Session"
                    [ ("name"%string, VStr (u "2020-01-01_mouseX"));
                      ("user_data_left_water_consumption"%string, VFloat 2.5) ] ]) ] |}.

(** A Session whose outcome fields are given and whose other fields are unset. *)
Definition session_with (n : option pystr)
    (left_water left_mean left_perf right_water right_mean right_perf : value)
  : Session.t :=
  {| Session.name := n;
     Session.mouse := VNone;
     Session.logfile := VStr [];
     Session.board := VNone;
     Session.box := VNone;
     Session.serial_port := VNone;
     Session.autosketch_path := VStr [];
     Session.script_path := VStr [];
     Session.sandbox := VStr [];
     Session.python_param_scheduler_name := VNone;
     Session.python_param_stimulus_set := VNone;
     Session.irl_param_stimulus_arm := VNone;
     Session.date_time_start := VNone;
     Session.date_time_stop := VNone;
     Session.user_data_water_pipe_position_start := VNone;
     Session.user_data_water_pipe_position_stop := VNone;
     Session.user_data_left_water_consumption := left_water;
     Session.user_data_right_water_consumption := right_water;
     Session.user_data_left_valve_mean := left_mean;
     Session.user_data_right_valve_mean := right_mean;
     Session.user_data_left_perf := left_perf;
     Session.user_data_right_perf := right_perf;
     Session.user_data_bias_summary := VNone;
     Session.user_data_weight := VNone |}.

(** A complete set of keyword arguments for a Mouse, optional fields left out. *)
Definition mouse_kwargs : Mouse.kwargs :=
  [ (Mouse.name, VStr (u "KM100"));
    (Mouse.stimulus_set, VStr (u "trial_types_2shapes"));
    (Mouse.step_first_rotation, VInt 50);
    (Mouse.scheduler, VStr (u "Auto"));
    (Mouse.protocol_name, VStr (u "TwoChoice"));
    (Mouse.script_name, VStr (u "TwoChoice.py")) ].

(** Sessions with chosen left-side water fields. *)
Definition session_mean_only : Session.t :=
  session_with None VNone (VFloat float_0_03) VNone VNone VNone VNone.

Definition session_zero_water : Session.t :=
  session_with None (VFloat 0) VNone VNone (VFloat (-0)) VNone VNone.

Definition session_no_water : Session.t :=
  session_with None VNone VNone VNone VNone VNone VNone.

Definition session_named : Session.t :=
  session_with (Some (u "2020-01-01_mouseX"))
    (VFloat 2.5) (VFloat float_0_03) (VFloat float_0_873)
    (VFloat 2.5) VNone (VStr (u "good")).

(** ** The two parts of a water summary

    The vocabulary in which the summaries are described: the content of a
    float column ([None] or a float), the text contributed by the
    consumption and the text contributed by the mean valve-open time.  Each
    part is empty when its column is [None] or zero. *)
Definition float_field (o : option float) : value :=
  match o with
  | Some f => VFloat f
  | None => VNone
  end.

Definition consumption_part (c : option float) : pystr :=
  match c with
  | Some f => if (f =? 0)%float then [] else format_f 2 f
  | None => []
  end.

Definition valve_part (m : option float) : pystr :=
  match m with
  | Some f =>
      if (f =? 0)%float then []
      else u " @" ++ format_f 1 (1000 * f)%float ++ Session.microlitre_suffix
  | None => []
  end.

(** The two conditional statements of a summary, each on its own column. *)
Definition consumption_step (c : value) (res : pystr) : result pystr :=
  if truthy c then s <- percent_f [] 2 [] c ;; Ok (res ++ s) else Ok res.

Definition valve_step (m : value) (res : pystr) : result pystr :=
  if truthy m
  then x <- mul_int 1000 m ;;
       s <- percent_f (u " @") 1 Session.microlitre_suffix x ;; Ok (res ++ s)
  else Ok res.

(** ** Further instances and vocabulary *)

(** A second configured Box: another water record and more sessions, the
    first session bearing the same name as that of [rig_box]. *)
Definition other_rig_box : Box.t :=
  {| Box.name := VStr (u "CR2");
     Box.l_reward_duration := VInt 60;
     Box.r_reward_duration := VNone;
     Box.serial_port := VStr (u "/dev/ttyACM1");
     Box.video_device := VNone;
     Box.video_window_position_x := VNone;
     Box.video_window_position_y := VNone;
     Box.gui_window_position_x := VInt 1;
     Box.gui_window_position_y := VInt 2;
     Box.window_position_IR_plot_x := VNone;
     Box.window_position_IR_plot_y := VNone;
     Box.subprocess_window_ypos := VNone;
     Box.video_brightness := VInt 3;
     Box.video_gain := VNone;
     Box.video_exposure := VNone;
     Box.other_attrs :=
       [ ("session_list"%string,
          VList [ VInstance "Session"
                    [ ("user_data_left_water_consumption"%string, VFloat 9.75);
                      ("name"%string, VStr (u "2020-01-01_mouseX")) ];
                  VInstance "Session"
                    [ ("name"%string, VStr (u "2020-01-02_mouseY"));
                      ("user_data_left_water_consumption"%string, VFloat 1) ] ]) ] |}.

(** A Box carrying a given [session_list] attribute and nothing else. *)
Definition box_with_sessions (sessions : value) : Box.t :=
  {| Box.name := VNone;
     Box.l_reward_duration := VNone;
     Box.r_reward_duration := VNone;
     Box.serial_port := VNone;
     Box.video_device := VNone;
     Box.video_window_position_x := VNone;
     Box.video_window_position_y := VNone;
     Box.gui_window_position_x := VNone;
     Box.gui_window_position_y := VNone;
     Box.window_position_IR_plot_x := VNone;
     Box.window_position_IR_plot_y := VNone;
     Box.subprocess_window_ypos := VNone;
     Box.video_brightness := VNone;
     Box.video_gain := VNone;
     Box.video_exposure := VNone;
     Box.other_attrs := [ ("session_list"%string, sessions) ] |}.

(** The Session obtained by exchanging the left and the right outcome
    columns (water consumption, mean valve-open time, performance). *)
Definition mirror (s : Session.t) : Session.t :=
  {| Session.name := Session.name s;
     Session.mouse := Session.mouse s;
     Session.logfile := Session.logfile s;
     Session.board := Session.board s;
     Session.box := Session.box s;
     Session.serial_port := Session.serial_port s;
     Session.autosketch_path := Session.autosketch_path s;
     Session.script_path := Session.script_path s;
     Session.sandbox := Session.sandbox s;
     Session.python_param_scheduler_name := Session.python_param_scheduler_name s;
     Session.python_param_stimulus_set := Session.python_param_stimulus_set s;
     Session.irl_param_stimulus_arm := Session.irl_param_stimulus_arm s;
     Session.date_time_start := Session.date_time_start s;
     Session.date_time_stop := Session.date_time_stop s;
     Session.user_data_water_pipe_position_start :=
       Session.user_data_water_pipe_position_start s;
     Session.user_data_water_pipe_position_stop :=
       Session.user_data_water_pipe_position_stop s;
     Session.user_data_left_water_consumption :=
       Session.user_data_right_water_consumption s;
     Session.user_data_right_water_consumption :=
       Session.user_data_left_water_consumption s;
     Session.user_data_left_valve_mean := Session.user_data_right_valve_mean s;
     Session.user_data_right_valve_mean := Session.user_data_left_valve_mean s;
     Session.user_data_left_perf := Session.user_data_right_perf s;
     Session.user_data_right_perf := Session.user_data_left_perf s;
     Session.user_data_bias_summary := Session.user_data_bias_summary s;
     Session.user_data_weight := Session.user_data_weight s |}.

(** Sessions whose water columns hold something else than a float. *)
Definition session_text_water : Session.t :=
  session_with None (VStr (u "2.5")) VNone VNone
                    (VFloat 2.5) (VList [VFloat float_0_03]) VNone.

Definition session_huge_water : Session.t :=
  session_with None (VInt (10 ^ 400)) VNone (VInt (10 ^ 400))
                    (VInt (- 10 ^ 400)) VNone VNone.

Definition session_falsy_water : Session.t :=
  session_with None (VInt 0) (VStr []) VNone (VBool false) (VTuple []) VNone.

(** The characters ['0'] to ['9']. *)
Definition is_digit (c : N) : bool := (48 <=? c)%N && (c <=? 57)%N.

(** * Properties *)

(** ** Python runtime *)

Lemma length_repeat_seq (A : Type) (n : Z) (l : list A) :
  length (repeat_seq n l) = (Z.to_nat n * length l)%nat.
Proof.
  unfold repeat_seq.
  induction (Z.to_nat n) as [|k IH]; simpl.
  - reflexivity.
  - rewrite length_app, IH. reflexivity.
Qed.

Lemma repeat_seq_not_single (A : Type) (l : list A) (a : A) :
  repeat_seq 100 l <> [a].
Proof.
  intro E. apply (f_equal (@length A)) in E.
  rewrite length_repeat_seq in E. simpl length in E.
  change (Z.to_nat 100) with 100%nat in E. lia.
Qed.

Lemma float_of_int_100 : float_of_int 100 = Ok 100%float.
Proof. vm_compute. reflexivity. Qed.

Lemma float_of_int_1000 : float_of_int 1000 = Ok 1000%float.
Proof. vm_compute. reflexivity. Qed.

(** ** [Box] *)
Module BoxProps.
Import Box.

(** The entry of a declared field in the instance dictionary is the field. *)
Lemma dict_declared (b : t) :
  assoc "name" (__dict__ b) = Some (name b) /\
  assoc "l_reward_duration" (__dict__ b) = Some (l_reward_duration b) /\
  assoc "r_reward_duration" (__dict__ b) = Some (r_reward_duration b) /\
  assoc "serial_port" (__dict__ b) = Some (serial_port b) /\
  assoc "video_device" (__dict__ b) = Some (video_device b) /\
  assoc "video_window_position_x" (__dict__ b) = Some (video_window_position_x b) /\
  assoc "video_window_position_y" (__dict__ b) = Some (video_window_position_y b) /\
  assoc "gui_window_position_x" (__dict__ b) = Some (gui_window_position_x b) /\
  assoc "gui_window_position_y" (__dict__ b) = Some (gui_window_position_y b) /\
  assoc "window_position_IR_plot_x" (__dict__ b)
    = Some (window_position_IR_plot_x b) /\
  assoc "window_position_IR_plot_y" (__dict__ b)
    = Some (window_position_IR_plot_y b) /\
  assoc "subprocess_window_ypos" (__dict__ b) = Some (subprocess_window_ypos b) /\
  assoc "video_brightness" (__dict__ b) = Some (video_brightness b) /\
  assoc "video_gain" (__dict__ b) = Some (video_gain b) /\
  assoc "video_exposure" (__dict__ b) = Some (video_exposure b).
Proof. repeat split. Qed.

(** The three outcomes a paired setter can have, by what subscripting gives. *)
Lemma getitem_short (obj : value) (n : nat) :
  len_seq obj = Some n -> (n < 2)%nat ->
  (getitem obj 0 = Raise IndexError) \/
  (exists x, getitem obj 0 = Ok x /\ getitem obj 1 = Raise IndexError).
Proof.
  intros Hl Hn.
  destruct obj as [| | | |s|l|l|]; simpl in Hl; try discriminate Hl;
    injection Hl as <-.
  - destruct s as [|c [|c' s]]; simpl in *; [left | right; eexists | lia]; eauto.
  - destruct l as [|c [|c' l]]; simpl in *; [left | right; eexists | lia]; eauto.
  - destruct l as [|c [|c' l]]; simpl in *; [left | right; eexists | lia]; eauto.
Qed.

Lemma getitem_long (obj : value) (n : nat) :
  len_seq obj = Some n -> (2 <= n)%nat ->
  exists x y, getitem obj 0 = Ok x /\ getitem obj 1 = Ok y.
Proof.
  intros Hl Hn.
  destruct obj as [| | | |s|l|l|]; simpl in Hl; try discriminate Hl;
    injection Hl as <-.
  - destruct s as [|c [|c' s]]; simpl in *; try lia; eauto.
  - destruct l as [|c [|c' l]]; simpl in *; try lia; eauto.
  - destruct l as [|c [|c' l]]; simpl in *; try lia; eauto.
Qed.

Lemma getitem_not_subscriptable (obj : value) (i : nat) :
  len_seq obj = None -> getitem obj i = Raise TypeError.
Proof. destruct obj; simpl; intros H; try discriminate H; reflexivity. Qed.

(** A name that is not a declared field is looked up among the other
    attributes of the instance. *)
Lemma getattr_session_list (b : t) :
  getattr b "session_list" =
  match assoc "session_list" (other_attrs b) with
  | Some v => Ok v
  | None => Raise (AttributeError "session_list")
  end.
Proof. reflexivity. Qed.

(** What a paired setter does, by the outcome of the two subscriptings. *)
Section SetterRuns.
Variables (b : t) (obj : value).

Lemma setters_when_long (x y : value) :
  getitem obj 0 = Ok x -> getitem obj 1 = Ok y ->
  video_window_position_setter obj b =
    (Ok tt, snd (set_video_window_position_y y
                   (snd (set_video_window_position_x x b)))) /\
  gui_window_position_setter obj b =
    (Ok tt, snd (set_gui_window_position_y y
                   (snd (set_gui_window_position_x x b)))) /\
  window_position_IR_plot_setter obj b =
    (Ok tt, snd (set_window_position_IR_plot_y y
                   (snd (set_window_position_IR_plot_x x b)))).
Proof.
  intros H0 H1.
  unfold video_window_position_setter, gui_window_position_setter,
    window_position_IR_plot_setter, bindM, eval.
  rewrite H0, H1. repeat split.
Qed.

Lemma setters_when_single (x : value) (e : exn) :
  getitem obj 0 = Ok x -> getitem obj 1 = Raise e ->
  video_window_position_setter obj b =
    (Raise e, snd (set_video_window_position_x x b)) /\
  gui_window_position_setter obj b =
    (Raise e, snd (set_gui_window_position_x x b)) /\
  window_position_IR_plot_setter obj b =
    (Raise e, snd (set_window_position_IR_plot_x x b)).
Proof.
  intros H0 H1.
  unfold video_window_position_setter, gui_window_position_setter,
    window_position_IR_plot_setter, bindM, eval.
  rewrite H0, H1. repeat split.
Qed.

Lemma setters_when_empty (e : exn) :
  getitem obj 0 = Raise e ->
  video_window_position_setter obj b = (Raise e, b) /\
  gui_window_position_setter obj b = (Raise e, b) /\
  window_position_IR_plot_setter obj b = (Raise e, b).
Proof.
  intros H0.
  unfold video_window_position_setter, gui_window_position_setter,
    window_position_IR_plot_setter, bindM, eval.
  rewrite H0. repeat split.
Qed.
End SetterRuns.

(** The instance after a paired setter ran is one of three. *)
Lemma setters_cases (b : t) (obj : value) :
  (exists x y,
     snd (video_window_position_setter obj b) =
       snd (set_video_window_position_y y (snd (set_video_window_position_x x b))) /\
     snd (gui_window_position_setter obj b) =
       snd (set_gui_window_position_y y (snd (set_gui_window_position_x x b))) /\
     snd (window_position_IR_plot_setter obj b) =
       snd (set_window_position_IR_plot_y y
              (snd (set_window_position_IR_plot_x x b)))) \/
  (exists x,
     snd (video_window_position_setter obj b) = snd (set_video_window_position_x x b) /\
     snd (gui_window_position_setter obj b) = snd (set_gui_window_position_x x b) /\
     snd (window_position_IR_plot_setter obj b) =
       snd (set_window_position_IR_plot_x x b)) \/
  (snd (video_window_position_setter obj b) = b /\
   snd (gui_window_position_setter obj b) = b /\
   snd (window_position_IR_plot_setter obj b) = b).
Proof.
  destruct (getitem obj 0) as [x|e0] eqn:H0.
  - destruct (getitem obj 1) as [y|e1] eqn:H1.
    + left. exists x, y.
      destruct (setters_when_long b obj H0 H1) as (-> & -> & ->). repeat split.
    + right; left. exists x.
      destruct (setters_when_single b obj H0 H1) as (-> & -> & ->). repeat split.
  - right; right.
    destruct (setters_when_empty b obj H0) as (-> & -> & ->). repeat split.
Qed.

(** C9. For every Box whose two backing fields of a paired coordinate
    property are both unset ([None]), reading the property returns the tuple
    [(None, None)]: the getters are total functions of the instance and
    have no failing branch. *)
Theorem paired_getter_of_unset_fields (b : t) :
  (video_window_position_x b = VNone -> video_window_position_y b = VNone ->
   video_window_position b = VTuple [VNone; VNone]) /\
  (gui_window_position_x b = VNone -> gui_window_position_y b = VNone ->
   gui_window_position b = VTuple [VNone; VNone]) /\
  (window_position_IR_plot_x b = VNone -> window_position_IR_plot_y b = VNone ->
   window_position_IR_plot b = VTuple [VNone; VNone]).
Proof.
  unfold video_window_position, gui_window_position, window_position_IR_plot.
  repeat split; intros -> ->; reflexivity.
Qed.

Lemma paired_getter_of_unset_fields_witness :
  video_window_position unset_box = VTuple [VNone; VNone] /\
  gui_window_position unset_box = VTuple [VNone; VNone] /\
  window_position_IR_plot unset_box = VTuple [VNone; VNone].
Proof.
  destruct (paired_getter_of_unset_fields unset_box) as (Hv & Hg & Hw).
  split; [apply Hv; reflexivity | split; [apply Hg | apply Hw]; reflexivity].
Defined.

(** C3. For every Box and every pair of values [(x, y)], setting a paired
    coordinate property to [(x, y)] succeeds and reading the same property
    afterwards returns exactly the tuple [(x, y)]. *)
Theorem paired_round_trip (b : t) (x y : value) :
  (fst (video_window_position_setter (VTuple [x; y]) b) = Ok tt /\
   video_window_position (snd (video_window_position_setter (VTuple [x; y]) b))
     = VTuple [x; y]) /\
  (fst (gui_window_position_setter (VTuple [x; y]) b) = Ok tt /\
   gui_window_position (snd (gui_window_position_setter (VTuple [x; y]) b))
     = VTuple [x; y]) /\
  (fst (window_position_IR_plot_setter (VTuple [x; y]) b) = Ok tt /\
   window_position_IR_plot (snd (window_position_IR_plot_setter (VTuple [x; y]) b))
     = VTuple [x; y]).
Proof.
  destruct (@setters_when_long b (VTuple [x; y]) x y eq_refl eq_refl)
    as (-> & -> & ->).
  repeat split.
Qed.

(** Assigning one backing field leaves every other entry alone. *)
Ltac field_frame H :=
  unfold __dict__; simpl snd;
  cbn [assoc app name l_reward_duration r_reward_duration serial_port
       video_device video_window_position_x video_window_position_y
       gui_window_position_x gui_window_position_y window_position_IR_plot_x
       window_position_IR_plot_y subprocess_window_ypos video_brightness
       video_gain video_exposure other_attrs];
  rewrite (proj2 (String.eqb_neq _ _) H); reflexivity.

Section FieldFrame.
Variables (b : t) (v : value) (attr : string).

Lemma frame_video_x : attr <> "video_window_position_x"%string ->
  assoc attr (__dict__ (snd (set_video_window_position_x v b)))
  = assoc attr (__dict__ b).
Proof. intros H. field_frame H. Qed.

Lemma frame_video_y : attr <> "video_window_position_y"%string ->
  assoc attr (__dict__ (snd (set_video_window_position_y v b)))
  = assoc attr (__dict__ b).
Proof. intros H. field_frame H. Qed.

Lemma frame_gui_x : attr <> "gui_window_position_x"%string ->
  assoc attr (__dict__ (snd (set_gui_window_position_x v b)))
  = assoc attr (__dict__ b).
Proof. intros H. field_frame H. Qed.

Lemma frame_gui_y : attr <> "gui_window_position_y"%string ->
  assoc attr (__dict__ (snd (set_gui_window_position_y v b)))
  = assoc attr (__dict__ b).
Proof. intros H. field_frame H. Qed.

Lemma frame_IR_plot_x : attr <> "window_position_IR_plot_x"%string ->
  assoc attr (__dict__ (snd (set_window_position_IR_plot_x v b)))
  = assoc attr (__dict__ b).
Proof. intros H. field_frame H. Qed.

Lemma frame_IR_plot_y : attr <> "window_position_IR_plot_y"%string ->
  assoc attr (__dict__ (snd (set_window_position_IR_plot_y v b)))
  = assoc attr (__dict__ b).
Proof. intros H. field_frame H. Qed.
End FieldFrame.

(** C10. For every Box and every assigned object, a paired setter mutates
    only its own two backing fields: every entry of the instance dictionary
    under another name (each other declared field, the backing fields of
    the other two paired properties among them, and each attribute besides
    the declared fields) is as before the write, whether the write went
    through or raised. *)
Theorem paired_setter_frame (b : t) (obj : value) (attr : string) :
  (attr <> "video_window_position_x"%string ->
   attr <> "video_window_position_y"%string ->
   assoc attr (__dict__ (snd (video_window_position_setter obj b)))
   = assoc attr (__dict__ b)) /\
  (attr <> "gui_window_position_x"%string ->
   attr <> "gui_window_position_y"%string ->
   assoc attr (__dict__ (snd (gui_window_position_setter obj b)))
   = assoc attr (__dict__ b)) /\
  (attr <> "window_position_IR_plot_x"%string ->
   attr <> "window_position_IR_plot_y"%string ->
   assoc attr (__dict__ (snd (window_position_IR_plot_setter obj b)))
   = assoc attr (__dict__ b)) /\
  other_attrs (snd (video_window_position_setter obj b)) = other_attrs b /\
  other_attrs (snd (gui_window_position_setter obj b)) = other_attrs b /\
  other_attrs (snd (window_position_IR_plot_setter obj b)) = other_attrs b.
Proof.
  destruct (setters_cases b obj)
    as [(x & y & -> & -> & ->) | [(x & -> & -> & ->) | (-> & -> & ->)]].
  - repeat split; try reflexivity; intros Hx Hy.
    + rewrite frame_video_y, frame_video_x by assumption. reflexivity.
    + rewrite frame_gui_y, frame_gui_x by assumption. reflexivity.
    + rewrite frame_IR_plot_y, frame_IR_plot_x by assumption. reflexivity.
  - repeat split; try reflexivity; intros Hx Hy.
    + apply frame_video_x; assumption.
    + apply frame_gui_x; assumption.
    + apply frame_IR_plot_x; assumption.
  - repeat split.
Qed.

Lemma paired_setter_frame_witness :
  assoc "gui_window_position_x"
    (__dict__ (snd (video_window_position_setter (VTuple [VInt 10; VInt 20]) rig_box)))
    = Some (VInt 700) /\
  assoc "window_position_IR_plot_x"
    (__dict__ (snd (gui_window_position_setter (VTuple [VInt 10]) rig_box)))
    = Some (VInt 2000) /\
  assoc "video_window_position_y"
    (__dict__ (snd (window_position_IR_plot_setter
                      (VList [VInt 1; VInt 2; VInt 3]) rig_box)))
    = Some (VInt 0).
Proof.
  split; [|split].
  - rewrite (proj1 (paired_setter_frame rig_box (VTuple [VInt 10; VInt 20])
                      "gui_window_position_x"));
      [reflexivity | discriminate | discriminate].
  - rewrite (proj1 (proj2 (paired_setter_frame rig_box (VTuple [VInt 10])
                      "window_position_IR_plot_x")));
      [reflexivity | discriminate | discriminate].
  - rewrite (proj1 (proj2 (proj2 (paired_setter_frame rig_box
                      (VList [VInt 1; VInt 2; VInt 3])
                      "video_window_position_y"))));
      [reflexivity | discriminate | discriminate].
Defined.

(** C2, as stated, fails: a sequence of three elements is accepted. *)
Lemma paired_setter_accepts_three_elements :
  len_seq (VTuple [VInt 1; VInt 2; VInt 3]) = Some 3%nat /\
  3%nat <> 2%nat /\
  fst (video_window_position_setter (VTuple [VInt 1; VInt 2; VInt 3]) unset_box)
    = Ok tt /\
  (forall e, fst (video_window_position_setter
                    (VTuple [VInt 1; VInt 2; VInt 3]) unset_box) <> Raise e) /\
  video_window_position
    (snd (video_window_position_setter (VTuple [VInt 1; VInt 2; VInt 3]) unset_box))
    = VTuple [VInt 1; VInt 2].
Proof.
  split; [reflexivity|]. split; [discriminate|]. split; [reflexivity|].
  split; [intros e; discriminate | reflexivity].
Qed.

(** C2, amended. For every Box and every sequence (text, tuple or list):
    setting a paired coordinate property to a sequence of fewer than two
    elements raises [IndexError]; a sequence of two or more elements is
    accepted, its first two elements are stored and read back as the pair,
    and further elements are ignored. *)
Theorem paired_setter_arity (b : t) (obj : value) (n : nat) :
  len_seq obj = Some n ->
  ((n < 2)%nat ->
   fst (video_window_position_setter obj b) = Raise IndexError /\
   fst (gui_window_position_setter obj b) = Raise IndexError /\
   fst (window_position_IR_plot_setter obj b) = Raise IndexError) /\
  ((2 <= n)%nat ->
   exists x y,
     getitem obj 0 = Ok x /\ getitem obj 1 = Ok y /\
     fst (video_window_position_setter obj b) = Ok tt /\
     video_window_position (snd (video_window_position_setter obj b))
       = VTuple [x; y] /\
     fst (gui_window_position_setter obj b) = Ok tt /\
     gui_window_position (snd (gui_window_position_setter obj b))
       = VTuple [x; y] /\
     fst (window_position_IR_plot_setter obj b) = Ok tt /\
     window_position_IR_plot (snd (window_position_IR_plot_setter obj b))
       = VTuple [x; y]).
Proof.
  intros Hlen. split; intros Hn.
  - destruct (getitem_short obj Hlen Hn) as [H0 | (x & H0 & H1)].
    + destruct (setters_when_empty b obj H0) as (-> & -> & ->). repeat split.
    + destruct (setters_when_single b obj H0 H1) as (-> & -> & ->). repeat split.
  - destruct (getitem_long obj Hlen Hn) as (x & y & H0 & H1).
    exists x, y.
    destruct (setters_when_long b obj H0 H1) as (-> & -> & ->).
    repeat split; assumption.
Qed.

Lemma paired_setter_arity_witness :
  fst (gui_window_position_setter (VTuple [VInt 7]) rig_box) = Raise IndexError /\
  exists x y,
    getitem (VStr (u "abc")) 0 = Ok x /\ getitem (VStr (u "abc")) 1 = Ok y /\
    fst (video_window_position_setter (VStr (u "abc")) rig_box) = Ok tt.
Proof.
  split.
  - assert (H1 : len_seq (VTuple [VInt 7]) = Some 1%nat) by reflexivity.
    destruct (paired_setter_arity rig_box (VTuple [VInt 7]) H1) as [Hs _].
    destruct Hs as (_ & Hg & _); [lia | exact Hg].
  - assert (H3 : len_seq (VStr (u "abc")) = Some 3%nat) by reflexivity.
    destruct (paired_setter_arity rig_box (VStr (u "abc")) H3) as [_ Hl].
    destruct Hl as (x & y & H0 & H1' & Hv & _); [lia |].
    exists x, y. repeat split; assumption.
Defined.

(** C5. For every Box, [mean_water_consumed] is no aggregate of water
    consumed: on an instance that carries no [session_list] attribute (none
    is declared) it raises [AttributeError], and whenever it does return a
    value, that value is the [name] attribute of the first element of a
    [session_list] attached to the instance. *)
Theorem mean_water_consumed_is_a_stub (b : t) :
  (assoc "session_list" (other_attrs b) = None ->
   mean_water_consumed b = Raise (AttributeError "session_list")) /\
  (forall v, mean_water_consumed b = Ok v ->
   exists sessions first,
     assoc "session_list" (other_attrs b) = Some sessions /\
     getitem sessions 0 = Ok first /\
     Py.getattr first "name" = Ok v).
Proof.
  unfold mean_water_consumed. rewrite getattr_session_list.
  destruct (assoc "session_list" (other_attrs b)) as [sessions|]; simpl.
  - split; [discriminate|]. intros v Hv.
    destruct (getitem sessions 0) as [first|e] eqn:H0; simpl in Hv;
      [|discriminate].
    exists sessions, first. repeat split; assumption.
  - split; [reflexivity|]. intros v Hv. discriminate.
Qed.

Lemma mean_water_consumed_is_a_stub_witness :
  mean_water_consumed unset_box = Raise (AttributeError "session_list") /\
  exists sessions first,
    assoc "session_list" (other_attrs rig_box) = Some sessions /\
    getitem sessions 0 = Ok first /\
    Py.getattr first "name" = Ok (VStr (u "2020-01-01_mouseX")).
Proof.
  split.
  - apply (proj1 (mean_water_consumed_is_a_stub unset_box)). reflexivity.
  - apply (proj2 (mean_water_consumed_is_a_stub rig_box)). reflexivity.
Defined.

End BoxProps.

(** ** [Session] *)
Module SessionProps.
Import Session.

Lemma mul_int_100_float (f : float) :
  mul_int 100 (VFloat f) = Ok (VFloat (100 * f)%float).
Proof. unfold mul_int. rewrite float_of_int_100. reflexivity. Qed.

Lemma mul_int_1000_float (f : float) :
  mul_int 1000 (VFloat f) = Ok (VFloat (1000 * f)%float).
Proof. unfold mul_int. rewrite float_of_int_1000. reflexivity. Qed.

Lemma percent_f_float pre p post (f : float) :
  percent_f pre p post (VFloat f) = Ok (pre ++ format_f p f ++ post).
Proof. reflexivity. Qed.

Lemma left_valve_summary_steps (s : t) :
  left_valve_summary s =
  (res <- consumption_step (user_data_left_water_consumption s) [] ;;
   res <- valve_step (user_data_left_valve_mean s) res ;;
   Ok res).
Proof. reflexivity. Qed.

Lemma right_valve_summary_steps (s : t) :
  right_valve_summary s =
  (res <- consumption_step (user_data_right_water_consumption s) [] ;;
   res <- valve_step (user_data_right_valve_mean s) res ;;
   Ok res).
Proof. reflexivity. Qed.

Lemma consumption_step_float_field (c : option float) (res : pystr) :
  consumption_step (float_field c) res = Ok (res ++ consumption_part c).
Proof.
  unfold consumption_step, consumption_part.
  destruct c as [f|]; cbn [float_field truthy].
  - destruct (f =? 0)%float; cbn [negb].
    + rewrite app_nil_r. reflexivity.
    + rewrite percent_f_float. cbn [bind app]. rewrite app_nil_r. reflexivity.
  - rewrite app_nil_r. reflexivity.
Qed.

Lemma valve_step_float_field (m : option float) (res : pystr) :
  valve_step (float_field m) res = Ok (res ++ valve_part m).
Proof.
  unfold valve_step, valve_part.
  destruct m as [f|]; cbn [float_field truthy].
  - destruct (f =? 0)%float; cbn [negb].
    + rewrite app_nil_r. reflexivity.
    + rewrite mul_int_1000_float. cbn [bind].
      rewrite percent_f_float. reflexivity.
  - rewrite app_nil_r. reflexivity.
Qed.

(** Both summaries, for columns that hold [None] or a float. *)
Lemma valve_summary_of_float_fields (s : t) (cl ml cr mr : option float) :
  user_data_left_water_consumption s = float_field cl ->
  user_data_left_valve_mean s = float_field ml ->
  user_data_right_water_consumption s = float_field cr ->
  user_data_right_valve_mean s = float_field mr ->
  left_valve_summary s = Ok (consumption_part cl ++ valve_part ml) /\
  right_valve_summary s = Ok (consumption_part cr ++ valve_part mr).
Proof.
  intros Hcl Hml Hcr Hmr.
  rewrite left_valve_summary_steps, right_valve_summary_steps.
  rewrite Hcl, Hml, Hcr, Hmr.
  rewrite !consumption_step_float_field. cbn [bind].
  rewrite !valve_step_float_field. split; reflexivity.
Qed.

(** C1, as stated, fails: with no consumption recorded and a mean valve-open
    time of 0.03 the left summary is [" @30.0 μL"], not the empty text. *)
Lemma water_summary_without_consumption :
  user_data_left_water_consumption session_mean_only = VNone /\
  left_valve_summary session_mean_only
    = Ok (u " @30.0 " ++ [GREEK_SMALL_LETTER_MU] ++ u "L") /\
  left_valve_summary session_mean_only <> Ok [].
Proof.
  split; [reflexivity|].
  assert (H : left_valve_summary session_mean_only
              = Ok (u " @30.0 " ++ [GREEK_SMALL_LETTER_MU] ++ u "L"))
    by (vm_compute; reflexivity).
  split; [exact H|]. rewrite H. vm_compute. discriminate.
Qed.

(** C1, amended. For every Session whose water columns hold [None] or a
    float, the left (resp. right) summary is the concatenation, with no
    separator, of two parts that are included independently of each other:
    the consumption formatted with ["%0.2f"] when it is recorded and not
    zero, and [" @%0.1f μL"] of 1000 times the mean valve-open time when
    that mean is recorded and not zero (the unit letter being U+03BC).  In
    particular (None, None) gives the empty text, (2.5, None) gives "2.50",
    (2.5, 0.03) gives "2.50 @30.0 μL" and (None, 0.03) gives
    " @30.0 μL". *)
Theorem water_summary_parts (s : t) (cl ml cr mr : option float) :
  user_data_left_water_consumption s = float_field cl ->
  user_data_left_valve_mean s = float_field ml ->
  user_data_right_water_consumption s = float_field cr ->
  user_data_right_valve_mean s = float_field mr ->
  (left_valve_summary s = Ok (consumption_part cl ++ valve_part ml) /\
   right_valve_summary s = Ok (consumption_part cr ++ valve_part mr)) /\
  consumption_part None ++ valve_part None = [] /\
  consumption_part (Some 2.5%float) ++ valve_part None = u "2.50" /\
  consumption_part (Some 2.5%float) ++ valve_part (Some float_0_03)
    = u "2.50 @30.0 " ++ [GREEK_SMALL_LETTER_MU] ++ u "L" /\
  consumption_part None ++ valve_part (Some float_0_03)
    = u " @30.0 " ++ [GREEK_SMALL_LETTER_MU] ++ u "L".
Proof.
  intros Hcl Hml Hcr Hmr.
  split; [exact (valve_summary_of_float_fields s cl ml cr mr Hcl Hml Hcr Hmr)|].
  split; [|split; [|split]]; vm_compute; reflexivity.
Qed.

Lemma water_summary_parts_witness :
  left_valve_summary session_named
    = Ok (u "2.50 @30.0 " ++ [GREEK_SMALL_LETTER_MU] ++ u "L") /\
  right_valve_summary session_named = Ok (u "2.50").
Proof.
  destruct (@water_summary_parts session_named
              (Some 2.5%float) (Some float_0_03) (Some 2.5%float) None
              eq_refl eq_refl eq_refl eq_refl)
    as ((Hl & Hr) & _ & H2 & H3 & _).
  rewrite Hl, Hr, H2, H3. split; reflexivity.
Defined.

(** The unit letter the code prints is U+03BC, not the MICRO SIGN U+00B5. *)
Lemma summary_unit_letter :
  left_valve_summary session_named
    <> Ok (u "2.50 @30.0 " ++ [MICRO_SIGN] ++ u "L").
Proof. vm_compute. discriminate. Qed.

(** C8. For every Session whose stored left (resp. right) water
    consumption is a float equal to zero, the summary omits the consumption
    part: it is the summary of a session that has the same mean valve-open
    time and no consumption recorded, and it is the empty text when no mean
    is recorded either. *)
Theorem zero_consumption_is_omitted (s s0 : t) (f : float) :
  (f =? 0)%float = true ->
  (user_data_left_water_consumption s = VFloat f ->
   user_data_left_water_consumption s0 = VNone ->
   user_data_left_valve_mean s0 = user_data_left_valve_mean s ->
   left_valve_summary s = left_valve_summary s0) /\
  (user_data_left_water_consumption s = VFloat f ->
   user_data_left_valve_mean s = VNone ->
   left_valve_summary s = Ok []) /\
  (user_data_right_water_consumption s = VFloat f ->
   user_data_right_water_consumption s0 = VNone ->
   user_data_right_valve_mean s0 = user_data_right_valve_mean s ->
   right_valve_summary s = right_valve_summary s0) /\
  (user_data_right_water_consumption s = VFloat f ->
   user_data_right_valve_mean s = VNone ->
   right_valve_summary s = Ok []).
Proof.
  intros Hz.
  assert (Hstep : forall res, consumption_step (VFloat f) res = Ok res).
  { intros res. unfold consumption_step. cbn [truthy]. rewrite Hz. reflexivity. }
  rewrite !left_valve_summary_steps, !right_valve_summary_steps.
  repeat split.
  - intros -> -> ->. rewrite Hstep. reflexivity.
  - intros -> ->. rewrite Hstep. reflexivity.
  - intros -> -> ->. rewrite Hstep. reflexivity.
  - intros -> ->. rewrite Hstep. reflexivity.
Qed.

Lemma zero_consumption_is_omitted_witness :
  left_valve_summary session_zero_water = left_valve_summary session_no_water /\
  left_valve_summary session_zero_water = Ok [].
Proof.
  assert (Hz : (0 =? 0)%float = true) by reflexivity.
  destruct (@zero_consumption_is_omitted session_zero_water session_no_water
              0%float Hz)
    as (H1 & H2 & _).
  split; [apply H1 | apply H2]; reflexivity.
Defined.

(** C4. For every Session, the left (resp. right) performance display is
    the stored fraction times 100 formatted with no decimal place (0.873
    gives "87"); for [None] or any value that is not a number it is the text
    "NA".  The display is a total function to texts: no exception leaves
    it. *)
Theorem perf_display (s : t) :
  (forall f, user_data_left_perf s = VFloat f ->
             display_left_perf s = format_f 0 (100 * f)%float) /\
  (user_data_left_perf s = VNone -> display_left_perf s = u "NA") /\
  (is_numeric (user_data_left_perf s) = false -> display_left_perf s = u "NA") /\
  (forall f, user_data_right_perf s = VFloat f ->
             display_right_perf s = format_f 0 (100 * f)%float) /\
  (user_data_right_perf s = VNone -> display_right_perf s = u "NA") /\
  (is_numeric (user_data_right_perf s) = false -> display_right_perf s = u "NA") /\
  format_f 0 (100 * float_0_873)%float = u "87".
Proof.
  assert (Hnum : forall v, is_numeric v = false ->
            try_except (x <- mul_int 100 v ;; percent_f [] 0 [] x) (u "NA")
            = u "NA").
  { intros v Hv. destruct v as [| | | |t|l|l|c a]; try discriminate Hv;
      try reflexivity.
    cbn [mul_int bind]. unfold percent_f.
    destruct (repeat_seq 100 l) as [|a [|a' r]] eqn:E; try reflexivity.
    exfalso. exact (repeat_seq_not_single l E). }
  assert (Hfloat : forall f,
            try_except (x <- mul_int 100 (VFloat f) ;; percent_f [] 0 [] x) (u "NA")
            = format_f 0 (100 * f)%float).
  { intros f. rewrite mul_int_100_float. cbn [bind].
    rewrite percent_f_float. cbn [try_except app]. apply app_nil_r. }
  unfold display_left_perf, display_right_perf.
  split; [|split; [|split; [|split; [|split; [|split]]]]].
  - intros f ->. apply Hfloat.
  - intros ->. apply Hnum. reflexivity.
  - apply Hnum.
  - intros f ->. apply Hfloat.
  - intros ->. apply Hnum. reflexivity.
  - apply Hnum.
  - vm_compute. reflexivity.
Qed.

Lemma perf_display_witness :
  display_left_perf session_named = u "87" /\
  display_left_perf session_no_water = u "NA" /\
  display_right_perf session_named = u "NA".
Proof.
  destruct (perf_display session_named) as (Hf & _ & _ & _ & _ & Hn & H87).
  destruct (perf_display session_no_water) as (_ & Hnone & _).
  split; [|split].
  - rewrite <- H87. apply Hf. reflexivity.
  - apply Hnone. reflexivity.
  - apply Hn. reflexivity.
Defined.

(** C6. For every Session, the label is the text "Unstarted" when the name
    is unassigned ([None]) or empty, and is exactly the stored name
    otherwise. *)
Theorem session_label (s : t) :
  (name s = None \/ name s = Some [] -> __str__ s = u "Unstarted") /\
  (forall n, name s = Some n -> n <> [] -> __str__ s = n).
Proof.
  unfold __str__. split.
  - intros [-> | ->]; reflexivity.
  - intros n -> Hn. destruct n as [|c n]; [contradiction|reflexivity].
Qed.

Lemma session_label_witness :
  __str__ session_no_water = u "Unstarted" /\
  __str__ session_named = u "2020-01-01_mouseX".
Proof.
  split.
  - apply (proj1 (session_label session_no_water)). left. reflexivity.
  - apply (proj2 (session_label session_named)); [reflexivity | discriminate].
Defined.

End SessionProps.

(** ** [Mouse] *)
Module MouseProps.
Import Mouse.

(** A keyword argument that carries a value. *)
Definition given (kw : kwargs) (f : field) : Prop :=
  exists v, lookup f kw = Some v /\ is_empty v = false.

Lemma given_not_missing (kw : kwargs) (f : field) :
  given kw f -> missing kw f = false.
Proof.
  intros (v & Hl & Hv). unfold missing, initial. rewrite Hl, Hv.
  apply andb_false_r.
Qed.

(** C7. Creating a Mouse without [stimulus_set] fails with a validation
    error that names [stimulus_set]; creating one with every required field
    given, and the optional [timeout], [default_board] and [default_box] left
    out, succeeds with these three fields null. *)
Theorem mouse_creation (kw : kwargs) :
  (lookup stimulus_set kw = None ->
   exists errs, create kw = ValidationError errs /\ In stimulus_set errs) /\
  (given kw name -> given kw stimulus_set -> given kw step_first_rotation ->
   given kw scheduler -> given kw protocol_name -> given kw script_name ->
   lookup max_rewards_per_trial kw = None \/ given kw max_rewards_per_trial ->
   lookup timeout kw = None -> lookup default_board kw = None ->
   lookup default_box kw = None ->
   exists m, create kw = Created m /\
             m timeout = VNone /\ m default_board = VNone /\
             m default_box = VNone /\
             lookup stimulus_set kw = Some (m stimulus_set)).
Proof.
  split.
  - intros Hnone.
    assert (Hin : In stimulus_set (List.filter (missing kw) fields)).
    { apply filter_In. split; [simpl; tauto|].
      unfold missing, initial. rewrite Hnone. reflexivity. }
    unfold create. destruct (List.filter (missing kw) fields) as [|e errs].
    + destruct Hin.
    + exists (e :: errs). split; [reflexivity | exact Hin].
  - intros Hn Hs Hr Hsc Hp Hsn Hmax Ht Hb Hx.
    assert (Hm : forall f, missing kw f = false).
    { intros f. destruct f; try (apply given_not_missing; assumption);
        try reflexivity.
      destruct Hmax as [Hmax | Hmax]; [|apply given_not_missing; assumption].
      unfold missing, initial. rewrite Hmax. reflexivity. }
    assert (Hf : List.filter (missing kw) fields = []).
    { unfold fields. cbn [List.filter]. rewrite !Hm. reflexivity. }
    unfold create. rewrite Hf. exists (initial kw).
    split; [reflexivity|].
    unfold initial. rewrite Ht, Hb, Hx.
    destruct Hs as (v & -> & _). repeat split.
Qed.

Lemma mouse_creation_witness :
  (exists errs, create [(name, VStr (u "KM100"))] = ValidationError errs /\
                In stimulus_set errs) /\
  (exists m, create mouse_kwargs = Created m /\
             m timeout = VNone /\ m default_board = VNone /\
             m default_box = VNone /\
             lookup stimulus_set mouse_kwargs = Some (m stimulus_set)).
Proof.
  split.
  - apply (proj1 (mouse_creation [(name, VStr (u "KM100"))])). reflexivity.
  - apply (proj2 (mouse_creation mouse_kwargs));
      try (eexists; split; reflexivity); try reflexivity.
    left. reflexivity.
Defined.

End MouseProps.

(** ** [Box]: how the paired setters behave and compose *)
Module BoxLaws.
Import Box.

(** A paired setter, by the outcome of the two subscriptings. *)
Lemma video_run (obj : value) (b : t) :
  video_window_position_setter obj b =
  match getitem obj 0 with
  | Raise e => (Raise e, b)
  | Ok x =>
      match getitem obj 1 with
      | Raise e => (Raise e, snd (set_video_window_position_x x b))
      | Ok y => (Ok tt, snd (set_video_window_position_y y
                               (snd (set_video_window_position_x x b))))
      end
  end.
Proof.
  unfold video_window_position_setter, bindM, eval.
  destruct (getitem obj 0); [destruct (getitem obj 1)|]; reflexivity.
Qed.

Lemma gui_run (obj : value) (b : t) :
  gui_window_position_setter obj b =
  match getitem obj 0 with
  | Raise e => (Raise e, b)
  | Ok x =>
      match getitem obj 1 with
      | Raise e => (Raise e, snd (set_gui_window_position_x x b))
      | Ok y => (Ok tt, snd (set_gui_window_position_y y
                               (snd (set_gui_window_position_x x b))))
      end
  end.
Proof.
  unfold gui_window_position_setter, bindM, eval.
  destruct (getitem obj 0); [destruct (getitem obj 1)|]; reflexivity.
Qed.

Lemma IR_plot_run (obj : value) (b : t) :
  window_position_IR_plot_setter obj b =
  match getitem obj 0 with
  | Raise e => (Raise e, b)
  | Ok x =>
      match getitem obj 1 with
      | Raise e => (Raise e, snd (set_window_position_IR_plot_x x b))
      | Ok y => (Ok tt, snd (set_window_position_IR_plot_y y
                               (snd (set_window_position_IR_plot_x x b))))
      end
  end.
Proof.
  unfold window_position_IR_plot_setter, bindM, eval.
  destruct (getitem obj 0); [destruct (getitem obj 1)|]; reflexivity.
Qed.

Lemma getitem_of_single (obj : value) (x : value) :
  len_seq obj = Some 1%nat -> getitem obj 0 = Ok x ->
  getitem obj 1 = Raise IndexError.
Proof.
  intros Hl _.
  destruct obj as [| | | |s|l|l|]; simpl in Hl; try discriminate Hl.
  - destruct s as [|c [|c' s]]; try discriminate Hl. reflexivity.
  - destruct l as [|c [|c' l]]; try discriminate Hl. reflexivity.
  - destruct l as [|c [|c' l]]; try discriminate Hl. reflexivity.
Qed.

Lemma getitem_of_empty (obj : value) :
  len_seq obj = Some 0%nat -> getitem obj 0 = Raise IndexError.
Proof.
  intros Hl.
  destruct obj as [| | | |s|l|l|]; simpl in Hl; try discriminate Hl.
  - destruct s; [reflexivity | discriminate Hl].
  - destruct l; [reflexivity | discriminate Hl].
  - destruct l; [reflexivity | discriminate Hl].
Qed.

(** X1. A write of a one-element sequence is partial: it raises
    [IndexError] after having stored the element in the [_x] field, so the
    property then reads as the new x paired with the old y. *)
Theorem single_element_write_is_partial (b : t) (obj x : value) :
  len_seq obj = Some 1%nat ->
  getitem obj 0 = Ok x ->
  (fst (video_window_position_setter obj b) = Raise IndexError /\
   video_window_position (snd (video_window_position_setter obj b))
     = VTuple [x; video_window_position_y b]) /\
  (fst (gui_window_position_setter obj b) = Raise IndexError /\
   gui_window_position (snd (gui_window_position_setter obj b))
     = VTuple [x; gui_window_position_y b]) /\
  (fst (window_position_IR_plot_setter obj b) = Raise IndexError /\
   window_position_IR_plot (snd (window_position_IR_plot_setter obj b))
     = VTuple [x; window_position_IR_plot_y b]).
Proof.
  intros Hl H0. pose proof (getitem_of_single obj Hl H0) as H1.
  rewrite video_run, gui_run, IR_plot_run, H0, H1. repeat split.
Qed.

Lemma single_element_write_is_partial_witness :
  fst (video_window_position_setter (VList [VInt 9]) rig_box) = Raise IndexError /\
  video_window_position (snd (video_window_position_setter (VList [VInt 9]) rig_box))
    = VTuple [VInt 9; VInt 0].
Proof.
  exact (proj1 (@single_element_write_is_partial rig_box (VList [VInt 9]) (VInt 9)
                  eq_refl eq_refl)).
Defined.

(** X2. A write that fails on its first subscripting changes nothing: an
    empty sequence raises [IndexError], an object that is no sequence
    ([None], a number, an instance) raises [TypeError], and in both cases
    the instance is exactly as before. *)
Theorem failed_first_subscript_leaves_box (b : t) (obj : value) :
  (len_seq obj = Some 0%nat ->
   video_window_position_setter obj b = (Raise IndexError, b) /\
   gui_window_position_setter obj b = (Raise IndexError, b) /\
   window_position_IR_plot_setter obj b = (Raise IndexError, b)) /\
  (len_seq obj = None ->
   video_window_position_setter obj b = (Raise TypeError, b) /\
   gui_window_position_setter obj b = (Raise TypeError, b) /\
   window_position_IR_plot_setter obj b = (Raise TypeError, b)).
Proof.
  split; intros Hl.
  - rewrite video_run, gui_run, IR_plot_run, (getitem_of_empty obj Hl).
    repeat split.
  - rewrite video_run, gui_run, IR_plot_run,
      (BoxProps.getitem_not_subscriptable obj 0 Hl).
    repeat split.
Qed.

Lemma failed_first_subscript_leaves_box_witness :
  gui_window_position_setter (VStr []) rig_box = (Raise IndexError, rig_box) /\
  video_window_position_setter VNone rig_box = (Raise TypeError, rig_box).
Proof.
  split.
  - apply (proj1 (failed_first_subscript_leaves_box rig_box (VStr []))).
    reflexivity.
  - apply (proj2 (failed_first_subscript_leaves_box rig_box VNone)).
    reflexivity.
Defined.

(** X3. Writing the same object twice is the same as writing it once:
    same outcome and same instance, whether the write succeeds or fails. *)
Theorem paired_setter_idempotent (b : t) (obj : value) :
  video_window_position_setter obj (snd (video_window_position_setter obj b))
    = video_window_position_setter obj b /\
  gui_window_position_setter obj (snd (gui_window_position_setter obj b))
    = gui_window_position_setter obj b /\
  window_position_IR_plot_setter obj (snd (window_position_IR_plot_setter obj b))
    = window_position_IR_plot_setter obj b.
Proof.
  rewrite !video_run, !gui_run, !IR_plot_run.
  destruct (getitem obj 0); [destruct (getitem obj 1)|]; repeat split.
Qed.

(** X4. The last successful write wins: after any earlier write to the
    same property, successful or not, a write of a sequence of two or more
    elements leaves the instance it would have left on its own. *)
Theorem later_write_overrides (b : t) (earlier obj : value) (n : nat) :
  len_seq obj = Some n -> (2 <= n)%nat ->
  video_window_position_setter obj
      (snd (video_window_position_setter earlier b))
    = video_window_position_setter obj b /\
  gui_window_position_setter obj (snd (gui_window_position_setter earlier b))
    = gui_window_position_setter obj b /\
  window_position_IR_plot_setter obj
      (snd (window_position_IR_plot_setter earlier b))
    = window_position_IR_plot_setter obj b.
Proof.
  intros Hl Hn.
  destruct (BoxProps.getitem_long obj Hl Hn) as (x & y & H0 & H1).
  rewrite !video_run, !gui_run, !IR_plot_run, H0, H1.
  destruct (getitem earlier 0); [destruct (getitem earlier 1)|]; repeat split.
Qed.

Lemma later_write_overrides_witness :
  video_window_position_setter (VTuple [VInt 1; VInt 2])
      (snd (video_window_position_setter (VTuple [VInt 7]) rig_box))
    = video_window_position_setter (VTuple [VInt 1; VInt 2]) rig_box.
Proof.
  exact (proj1 (@later_write_overrides rig_box (VTuple [VInt 7])
                  (VTuple [VInt 1; VInt 2]) 2 eq_refl (le_n 2))).
Defined.

(** X5. Writes to two different paired properties commute: in either
    order they leave the same instance, and the outcome of each write does
    not depend on the other having run. *)
Theorem setters_of_distinct_properties_commute (b : t) (o1 o2 : value) :
  (snd (gui_window_position_setter o2 (snd (video_window_position_setter o1 b)))
   = snd (video_window_position_setter o1 (snd (gui_window_position_setter o2 b))) /\
   fst (gui_window_position_setter o2 (snd (video_window_position_setter o1 b)))
   = fst (gui_window_position_setter o2 b) /\
   fst (video_window_position_setter o1 (snd (gui_window_position_setter o2 b)))
   = fst (video_window_position_setter o1 b)) /\
  (snd (window_position_IR_plot_setter o2
          (snd (video_window_position_setter o1 b)))
   = snd (video_window_position_setter o1
            (snd (window_position_IR_plot_setter o2 b))) /\
   fst (window_position_IR_plot_setter o2
          (snd (video_window_position_setter o1 b)))
   = fst (window_position_IR_plot_setter o2 b) /\
   fst (video_window_position_setter o1
          (snd (window_position_IR_plot_setter o2 b)))
   = fst (video_window_position_setter o1 b)) /\
  (snd (window_position_IR_plot_setter o2
          (snd (gui_window_position_setter o1 b)))
   = snd (gui_window_position_setter o1
            (snd (window_position_IR_plot_setter o2 b))) /\
   fst (window_position_IR_plot_setter o2
          (snd (gui_window_position_setter o1 b)))
   = fst (window_position_IR_plot_setter o2 b) /\
   fst (gui_window_position_setter o1
          (snd (window_position_IR_plot_setter o2 b)))
   = fst (gui_window_position_setter o1 b)).
Proof.
  rewrite !video_run, !gui_run, !IR_plot_run.
  destruct (getitem o1 0); [destruct (getitem o1 1)|];
    (destruct (getitem o2 0); [destruct (getitem o2 1)|]);
    repeat split.
Qed.

(** X6. Assigning a paired property the value it currently reads as
    succeeds and leaves the instance exactly as it was. *)
Theorem write_back_of_reading_is_identity (b : t) :
  video_window_position_setter (video_window_position b) b = (Ok tt, b) /\
  gui_window_position_setter (gui_window_position b) b = (Ok tt, b) /\
  window_position_IR_plot_setter (window_position_IR_plot b) b = (Ok tt, b).
Proof. destruct b. repeat split. Qed.

(** X7. With a [session_list] attached, [mean_water_consumed] fails in
    three ways: [IndexError] when the list is empty, [TypeError] when the
    attribute is no sequence, and [AttributeError] on [name] when the first
    element carries no [name] attribute. *)
Theorem mean_water_consumed_failures (b : t) (sessions : value) :
  assoc "session_list" (other_attrs b) = Some sessions ->
  (len_seq sessions = Some 0%nat ->
   mean_water_consumed b = Raise IndexError) /\
  (len_seq sessions = None ->
   mean_water_consumed b = Raise TypeError) /\
  (forall first,
     getitem sessions 0 = Ok first ->
     (forall c a v, first = VInstance c a -> assoc "name" a <> Some v) ->
     mean_water_consumed b = Raise (AttributeError "name")).
Proof.
  intros Hs. unfold mean_water_consumed.
  rewrite BoxProps.getattr_session_list, Hs. cbn [bind].
  split; [|split].
  - intros Hl. rewrite (getitem_of_empty sessions Hl). reflexivity.
  - intros Hl. rewrite (BoxProps.getitem_not_subscriptable sessions 0 Hl).
    reflexivity.
  - intros first H0 Hname. rewrite H0. cbn [bind].
    destruct first as [| | | | | | |c a]; try reflexivity.
    unfold Py.getattr. destruct (assoc "name" a) as [v|] eqn:Ha;
      [|reflexivity].
    exfalso. exact (Hname c a v eq_refl Ha).
Qed.

Lemma mean_water_consumed_failures_witness :
  mean_water_consumed (box_with_sessions (VList [])) = Raise IndexError /\
  mean_water_consumed (box_with_sessions (VInt 3)) = Raise TypeError /\
  mean_water_consumed (box_with_sessions (VList [VFloat 2.5]))
    = Raise (AttributeError "name").
Proof.
  split; [|split].
  - apply (proj1 (@mean_water_consumed_failures
                    (box_with_sessions (VList [])) (VList []) eq_refl)).
    reflexivity.
  - apply (proj1 (proj2 (@mean_water_consumed_failures
                    (box_with_sessions (VInt 3)) (VInt 3) eq_refl))).
    reflexivity.
  - apply (proj2 (proj2 (@mean_water_consumed_failures
                    (box_with_sessions (VList [VFloat 2.5]))
                    (VList [VFloat 2.5]) eq_refl)) (VFloat 2.5)).
    + reflexivity.
    + intros c a v H. discriminate H.
Defined.

(** X8. [mean_water_consumed] depends on nothing but the [name] of the
    first listed session: two Boxes whose first sessions carry the same
    [name] get the same result, whatever their own fields, the other
    attributes of that session (its water columns among them) and the
    further sessions are. *)
Theorem mean_water_consumed_reads_only_first_name
    (b b' : t) (c c' : string) (a a' : list (string * value))
    (rest rest' : list value) :
  assoc "session_list" (other_attrs b) = Some (VList (VInstance c a :: rest)) ->
  assoc "session_list" (other_attrs b')
    = Some (VList (VInstance c' a' :: rest')) ->
  assoc "name" a = assoc "name" a' ->
  mean_water_consumed b = mean_water_consumed b'.
Proof.
  intros Hb Hb' Hname. unfold mean_water_consumed.
  rewrite !BoxProps.getattr_session_list, Hb, Hb'.
  cbn [bind getitem nth_error Py.getattr]. rewrite Hname. reflexivity.
Qed.

Lemma mean_water_consumed_reads_only_first_name_witness :
  mean_water_consumed rig_box = mean_water_consumed other_rig_box.
Proof.
  apply (@mean_water_consumed_reads_only_first_name rig_box other_rig_box
           _ _ _ _ _ _ eq_refl eq_refl).
  reflexivity.
Defined.

End BoxLaws.

(** ** Fixed-point rendering: the shape of the text *)

Lemma digits_of_uint_are_digits (d : Decimal.uint) :
  forallb is_digit (digits_of_uint d) = true.
Proof. induction d; simpl; auto. Qed.

Lemma repeat_zero_are_digits (k : nat) :
  forallb is_digit (List.repeat 48%N k) = true.
Proof. induction k; simpl; auto. Qed.

(** [fixed p n] is a non-empty run of digits, then, when [p] is not zero, a
    point and exactly [p] digits. *)
Lemma fixed_shape (p : nat) (n : Z) :
  exists ip fp,
    fixed p n = ip ++ (if Nat.eqb p 0 then [] else 46%N :: fp) /\
    ip <> [] /\ length fp = p /\ forallb is_digit (ip ++ fp) = true.
Proof.
  unfold fixed.
  set (ds := List.repeat 48%N (S p - length (digits n)) ++ digits n).
  assert (Hlen : (S p <= length ds)%nat).
  { unfold ds. rewrite length_app, repeat_length. lia. }
  exists (firstn (length ds - p) ds), (skipn (length ds - p) ds).
  split; [reflexivity|]. split; [|split].
  - intros H. apply (f_equal (@length N)) in H.
    rewrite length_firstn in H. simpl in H. lia.
  - rewrite length_skipn. lia.
  - rewrite firstn_skipn. unfold ds. rewrite forallb_app.
    rewrite repeat_zero_are_digits. unfold digits.
    rewrite digits_of_uint_are_digits. reflexivity.
Qed.

Lemma format_f_finite_shape (p : nat) (x : float)
    (sg : bool) (m : positive) (e : Z) :
  Prim2SF x = S754_finite sg m e ->
  exists ip fp,
    format_f p x
      = sign_prefix sg ++ ip ++ (if Nat.eqb p 0 then [] else 46%N :: fp) /\
    ip <> [] /\ length fp = p /\ forallb is_digit (ip ++ fp) = true.
Proof.
  intros Hx. unfold format_f. rewrite Hx.
  match goal with
  | |- context [fixed p ?n] =>
      destruct (fixed_shape p n) as (ip & fp & -> & H1 & H2 & H3)
  end.
  exists ip, fp. repeat split; assumption.
Qed.

(** Whatever the float, its rendering is not empty and does not start with
    the letter N. *)
Lemma format_f_head (p : nat) (x : float) :
  exists c rest, format_f p x = c :: rest /\ c <> 78%N.
Proof.
  assert (Hfixed : forall sg n, exists c rest,
             sign_prefix sg ++ fixed p n = c :: rest /\ c <> 78%N).
  { intros sg n. destruct sg.
    - exists 45%N, (fixed p n). split; [reflexivity | discriminate].
    - destruct (fixed_shape p n) as (ip & fp & -> & H1 & _ & H3).
      destruct ip as [|c ip]; [contradiction|].
      exists c. eexists. split; [reflexivity|].
      simpl in H3. apply andb_prop in H3. destruct H3 as [Hc _].
      unfold is_digit in Hc. apply andb_prop in Hc. destruct Hc as [_ Hc].
      apply N.leb_le in Hc. intros ->. vm_compute in Hc. apply Hc. reflexivity. }
  unfold format_f. destruct (Prim2SF x) as [sg|sg| |sg m e].
  - apply Hfixed.
  - destruct sg; eexists; eexists; (split; [reflexivity | discriminate]).
  - eexists; eexists; (split; [reflexivity | discriminate]).
  - apply Hfixed.
Qed.

Lemma percent_f_ok (pre : pystr) (p : nat) (post : pystr) (v : value)
    (str : pystr) :
  percent_f pre p post v = Ok str ->
  exists x, str = pre ++ format_f p x ++ post.
Proof.
  unfold percent_f.
  match goal with
  | |- bind ?scrut _ = _ -> _ => destruct scrut as [x|e]
  end; cbn [bind]; intros H; [|discriminate H].
  injection H as <-. exists x. reflexivity.
Qed.

Lemma float_of_int_raises (n : Z) (e : exn) :
  float_of_int n = Raise e -> e = OverflowError.
Proof.
  unfold float_of_int.
  destruct (binary_normalize prec emax n 0 false); intros H;
    try discriminate H.
  injection H as <-. reflexivity.
Qed.

Lemma repeat_seq_never_single (A : Type) (n : Z) (l : list A) (a : A) :
  (1 < n)%Z -> repeat_seq n l <> [a].
Proof.
  intros Hn E. apply (f_equal (@length A)) in E.
  rewrite length_repeat_seq in E. change (length [a]) with 1%nat in E.
  assert (Hk : (2 <= Z.to_nat n)%nat) by lia.
  destruct (length l) as [|k].
  - rewrite Nat.mul_0_r in E. discriminate E.
  - rewrite Nat.mul_succ_r in E. lia.
Qed.

(** ** [Session]: labels, summaries and displays on every stored value *)
Module SessionLaws.
Import Session.

(** The [try] body of a performance display, on every stored value: either
    it prints a float, or it raises and the value is no number or is an
    integer too large for a float. *)
Lemma perf_body_cases (v : value) :
  (exists x, (y <- mul_int 100 v ;; percent_f [] 0 [] y) = Ok (format_f 0 x) /\
             is_numeric v = true /\
             (forall n, v = VInt n -> float_of_int (100 * n) = Ok x)) \/
  ((exists e, (y <- mul_int 100 v ;; percent_f [] 0 [] y) = Raise e) /\
   (is_numeric v = false \/
    exists n, v = VInt n /\ float_of_int (100 * n) = Raise OverflowError)).
Proof.
  destruct v as [|b|n|f|t|l|l|c a].
  - right. split; [eexists; reflexivity | left; reflexivity].
  - left. exists (if b then 100 else 0)%float.
    split; [|split; [reflexivity | intros n H; discriminate H]].
    destruct b; vm_compute; reflexivity.
  - cbn [mul_int bind]. unfold percent_f. cbn [as_float].
    destruct (float_of_int (100 * n)) as [x|e] eqn:E; cbn [bind].
    + left. exists x. rewrite app_nil_r.
      split; [reflexivity|]. split; [reflexivity|].
      intros n' H. injection H as <-. exact E.
    + right. split; [eexists; reflexivity|]. right. exists n.
      split; [reflexivity|]. rewrite (float_of_int_raises _ E) in E. exact E.
  - left. exists (100 * f)%float. rewrite SessionProps.mul_int_100_float.
    cbn [bind]. rewrite SessionProps.percent_f_float, app_nil_r.
    split; [reflexivity|]. split; [reflexivity | intros n H; discriminate H].
  - right. split; [eexists; reflexivity | left; reflexivity].
  - right. split; [|left; reflexivity].
    cbn [mul_int bind]. unfold percent_f.
    destruct (repeat_seq 100 l) as [|a [|a' r]] eqn:E;
      try (eexists; reflexivity).
    exfalso. exact (repeat_seq_not_single l E).
  - right. split; [eexists; reflexivity | left; reflexivity].
  - right. split; [eexists; reflexivity | left; reflexivity].
Qed.

Lemma format_f_not_NA (p : nat) (x : float) : format_f p x <> u "NA".
Proof.
  destruct (format_f_head p x) as (c & rest & -> & Hc).
  intros H. injection H as H _. exact (Hc H).
Qed.

Lemma format_f_not_empty (p : nat) (x : float) : format_f p x <> [].
Proof.
  destruct (format_f_head p x) as (c & rest & -> & _). discriminate.
Qed.

(** What a step of a summary returns when it returns. *)
Lemma consumption_step_ok (c : value) (res r : pystr) :
  consumption_step c res = Ok r ->
  (truthy c = false /\ r = res) \/
  (truthy c = true /\ exists t, t <> [] /\ r = res ++ t).
Proof.
  unfold consumption_step. destruct (truthy c).
  - intros H. right. split; [reflexivity|].
    destruct (percent_f [] 2 [] c) as [t|e] eqn:E; cbn [bind] in H;
      [|discriminate H].
    injection H as <-. exists t. split; [|reflexivity].
    destruct (percent_f_ok _ _ _ _ E) as (x & ->).
    cbn [app]. rewrite app_nil_r. apply format_f_not_empty.
  - intros H. injection H as <-. left. split; reflexivity.
Qed.

Lemma valve_step_ok (m : value) (res r : pystr) :
  valve_step m res = Ok r ->
  (truthy m = false /\ r = res) \/
  (truthy m = true /\ exists t, t <> [] /\ r = res ++ t).
Proof.
  unfold valve_step. destruct (truthy m).
  - intros H. right. split; [reflexivity|].
    destruct (mul_int 1000 m) as [x|e]; cbn [bind] in H; [|discriminate H].
    destruct (percent_f (u " @") 1 microlitre_suffix x) as [t|e] eqn:E;
      cbn [bind] in H; [|discriminate H].
    injection H as <-. exists t. split; [|reflexivity].
    destruct (percent_f_ok _ _ _ _ E) as (y & ->). discriminate.
  - intros H. injection H as <-. left. split; reflexivity.
Qed.

Lemma summary_blank_iff (c m : value) :
  (res <- consumption_step c [] ;; res <- valve_step m res ;; Ok res) = Ok []
  <-> truthy c = false /\ truthy m = false.
Proof.
  split.
  - intros H.
    destruct (consumption_step c []) as [r1|e] eqn:E1; cbn [bind] in H;
      [|discriminate H].
    destruct (valve_step m r1) as [r2|e] eqn:E2; cbn [bind] in H;
      [|discriminate H].
    injection H as ->.
    destruct (valve_step_ok _ _ E2) as [(Hm & <-) | (_ & t & Ht & Hr)].
    + destruct (consumption_step_ok _ _ E1) as [(Hc & _) | (_ & t & Ht & Hr)].
      * split; assumption.
      * destruct t; [contradiction | discriminate Hr].
    + symmetry in Hr. apply app_eq_nil in Hr. destruct Hr as [_ Hr].
      contradiction.
  - intros (Hc & Hm). unfold consumption_step, valve_step.
    rewrite Hc. cbn [bind]. rewrite Hm. reflexivity.
Qed.

(** Steps that raise. *)
Lemma consumption_step_type_error (v : value) (res : pystr) :
  truthy v = true -> is_numeric v = false ->
  (forall a, v <> VTuple [a]) ->
  consumption_step v res = Raise TypeError.
Proof.
  intros Ht Hn Hs. unfold consumption_step. rewrite Ht.
  destruct v as [| | | |t|l|l|c a]; try discriminate Hn; try discriminate Ht;
    try reflexivity.
  destruct l as [|a [|a' r]]; try reflexivity.
  exfalso. exact (Hs a eq_refl).
Qed.

Lemma valve_step_type_error (v : value) (res : pystr) :
  truthy v = true -> is_numeric v = false ->
  valve_step v res = Raise TypeError.
Proof.
  intros Ht Hn. unfold valve_step. rewrite Ht.
  destruct v as [| | | |t|l|l|c a]; try discriminate Hn; try discriminate Ht;
    try reflexivity.
  cbn [mul_int bind]. unfold percent_f.
  destruct (repeat_seq 1000 l) as [|a [|a' r]] eqn:E; try reflexivity.
  exfalso. apply (@repeat_seq_never_single _ 1000 l a); [lia | exact E].
Qed.

Lemma consumption_step_overflow (n : Z) (res : pystr) :
  float_of_int n = Raise OverflowError ->
  consumption_step (VInt n) res = Raise OverflowError.
Proof.
  intros Hn. unfold consumption_step, percent_f. cbn [truthy as_float].
  destruct (Z.eqb_spec n 0) as [-> | Hnz].
  - vm_compute in Hn. discriminate Hn.
  - cbn [negb]. rewrite Hn. reflexivity.
Qed.

(** X9. The label of a Session is never the empty text. *)
Theorem label_never_empty (s : t) : __str__ s <> [].
Proof.
  unfold __str__. destruct (name s) as [[|c n]|]; cbn; discriminate.
Qed.

(** X10. The label is "Unstarted" exactly when the name is unassigned,
    empty, or is itself the text "Unstarted": a session so named cannot be
    told from an unstarted one. *)
Theorem unstarted_label_iff (s : t) :
  __str__ s = u "Unstarted" <->
  name s = None \/ name s = Some [] \/ name s = Some (u "Unstarted").
Proof.
  unfold __str__. destruct (name s) as [[|c n]|]; cbn [text_value truthy
    length Nat.eqb negb str_of_text].
  - split; [intros _; right; left; reflexivity | reflexivity].
  - split.
    + intros H. right; right. rewrite H. reflexivity.
    + intros [H | [H | H]]; try discriminate H.
      exact (f_equal str_of_text H).
  - split; [intros _; left; reflexivity | reflexivity].
Qed.

Lemma unstarted_label_iff_witness :
  __str__ session_no_water = u "Unstarted" /\
  name (session_with (Some (u "Unstarted")) VNone VNone VNone VNone VNone VNone)
  = Some (u "Unstarted").
Proof.
  split.
  - apply (proj2 (unstarted_label_iff session_no_water)). left. reflexivity.
  - destruct (proj1 (unstarted_label_iff
        (session_with (Some (u "Unstarted")) VNone VNone VNone VNone VNone VNone))
        eq_refl) as [H | [H | H]]; try discriminate H. exact H.
Defined.

(** X11. The water summaries let exceptions through (they have no
    [try]): a consumption that is true and no number, other than a
    one-element tuple, raises [TypeError]; so does a mean valve-open time
    that is true and no number, once the consumption went through; and an
    integer consumption too large for a float raises [OverflowError]. *)
Theorem summaries_let_errors_through (s : t) :
  (truthy (user_data_left_water_consumption s) = true ->
   is_numeric (user_data_left_water_consumption s) = false ->
   (forall a, user_data_left_water_consumption s <> VTuple [a]) ->
   left_valve_summary s = Raise TypeError) /\
  (forall c, user_data_left_water_consumption s = float_field c ->
   truthy (user_data_left_valve_mean s) = true ->
   is_numeric (user_data_left_valve_mean s) = false ->
   left_valve_summary s = Raise TypeError) /\
  (forall n, user_data_left_water_consumption s = VInt n ->
   float_of_int n = Raise OverflowError ->
   left_valve_summary s = Raise OverflowError) /\
  (truthy (user_data_right_water_consumption s) = true ->
   is_numeric (user_data_right_water_consumption s) = false ->
   (forall a, user_data_right_water_consumption s <> VTuple [a]) ->
   right_valve_summary s = Raise TypeError) /\
  (forall c, user_data_right_water_consumption s = float_field c ->
   truthy (user_data_right_valve_mean s) = true ->
   is_numeric (user_data_right_valve_mean s) = false ->
   right_valve_summary s = Raise TypeError) /\
  (forall n, user_data_right_water_consumption s = VInt n ->
   float_of_int n = Raise OverflowError ->
   right_valve_summary s = Raise OverflowError).
Proof.
  rewrite SessionProps.left_valve_summary_steps,
    SessionProps.right_valve_summary_steps.
  split; [|split; [|split; [|split; [|split]]]].
  - intros Ht Hn Hs. rewrite consumption_step_type_error by assumption.
    reflexivity.
  - intros c -> Ht Hn. rewrite SessionProps.consumption_step_float_field.
    cbn [bind]. rewrite valve_step_type_error by assumption. reflexivity.
  - intros n -> Hn. rewrite consumption_step_overflow by assumption. reflexivity.
  - intros Ht Hn Hs. rewrite consumption_step_type_error by assumption.
    reflexivity.
  - intros c -> Ht Hn. rewrite SessionProps.consumption_step_float_field.
    cbn [bind]. rewrite valve_step_type_error by assumption. reflexivity.
  - intros n -> Hn. rewrite consumption_step_overflow by assumption. reflexivity.
Qed.

Lemma summaries_let_errors_through_witness :
  left_valve_summary session_text_water = Raise TypeError /\
  right_valve_summary session_text_water = Raise TypeError /\
  left_valve_summary session_huge_water = Raise OverflowError.
Proof.
  split; [|split].
  - apply (proj1 (summaries_let_errors_through session_text_water));
      [reflexivity | reflexivity | intros a H; discriminate H].
  - destruct (summaries_let_errors_through session_text_water)
      as (_ & _ & _ & _ & H & _).
    apply (H (Some 2.5%float)); reflexivity.
  - destruct (summaries_let_errors_through session_huge_water)
      as (_ & _ & H & _).
    apply (H (10 ^ 400)%Z); [reflexivity | vm_compute; reflexivity].
Defined.

(** X12. The right-hand accessors are the left-hand ones on the mirrored
    session, and conversely: the two summaries and the two displays differ
    only in the columns they read.  Mirroring twice gives the session back
    and does not change the label. *)
Theorem right_is_mirrored_left (s : t) :
  right_valve_summary s = left_valve_summary (mirror s) /\
  left_valve_summary s = right_valve_summary (mirror s) /\
  display_right_perf s = display_left_perf (mirror s) /\
  display_left_perf s = display_right_perf (mirror s) /\
  mirror (mirror s) = s /\
  __str__ (mirror s) = __str__ s.
Proof. destruct s. repeat split. Qed.

(** X13. A performance display is never the empty text, whatever is
    stored. *)
Theorem perf_display_never_blank (s : t) :
  display_left_perf s <> [] /\ display_right_perf s <> [].
Proof.
  unfold display_left_perf, display_right_perf. split.
  - destruct (perf_body_cases (user_data_left_perf s))
      as [(x & -> & _) | ((e & ->) & _)]; cbn [try_except].
    + apply format_f_not_empty.
    + discriminate.
  - destruct (perf_body_cases (user_data_right_perf s))
      as [(x & -> & _) | ((e & ->) & _)]; cbn [try_except].
    + apply format_f_not_empty.
    + discriminate.
Qed.

(** X14. A performance display is "NA" exactly when the stored value is no
    number, or is an integer whose hundredfold is too large for a float; a
    float (be it infinite or not a number) and a boolean never display as
    "NA". *)
Theorem NA_iff_unformattable (s : t) :
  (display_left_perf s = u "NA" <->
   is_numeric (user_data_left_perf s) = false \/
   exists n, user_data_left_perf s = VInt n /\
             float_of_int (100 * n) = Raise OverflowError) /\
  (display_right_perf s = u "NA" <->
   is_numeric (user_data_right_perf s) = false \/
   exists n, user_data_right_perf s = VInt n /\
             float_of_int (100 * n) = Raise OverflowError).
Proof.
  assert (H : forall v,
    try_except (y <- mul_int 100 v ;; percent_f [] 0 [] y) (u "NA") = u "NA"
    <-> is_numeric v = false \/
        exists n, v = VInt n /\ float_of_int (100 * n) = Raise OverflowError).
  { intros v.
    destruct (perf_body_cases v) as [(x & -> & Hnum & Hint) | ((e & ->) & Hc)];
      cbn [try_except].
    - split.
      + intros HNA. exfalso. exact (@format_f_not_NA 0 x HNA).
      + intros [Hn | (n & Hv & Ho)].
        * rewrite Hnum in Hn. discriminate Hn.
        * rewrite (Hint n Hv) in Ho. discriminate Ho.
    - split; [intros _; exact Hc | reflexivity]. }
  unfold display_left_perf, display_right_perf. split; apply H.
Qed.

Lemma NA_iff_unformattable_witness :
  display_left_perf session_huge_water = u "NA" /\
  display_right_perf session_named = u "NA".
Proof.
  destruct (NA_iff_unformattable session_huge_water) as [Hl _].
  destruct (NA_iff_unformattable session_named) as [_ Hr].
  split.
  - apply (proj2 Hl). right. exists (10 ^ 400)%Z.
    split; [reflexivity | vm_compute; reflexivity].
  - apply (proj2 Hr). left. reflexivity.
Defined.

(** X15. Each number of a summary is printed in plain fixed notation: a
    finite non-zero consumption, alone, as an optional minus sign, at least
    one digit, a point and exactly two digits; a mean valve-open time whose
    thousandfold is finite, alone, as " @", an optional minus sign, at least
    one digit, a point, exactly one digit and " μL". *)
Theorem summary_numbers_are_fixed_point (s : t) (f : float)
    (sg : bool) (m : positive) (e : Z) :
  (f =? 0)%float = false ->
  (user_data_left_water_consumption s = VFloat f ->
   user_data_left_valve_mean s = VNone ->
   Prim2SF f = S754_finite sg m e ->
   exists ip fp,
     left_valve_summary s = Ok (sign_prefix sg ++ ip ++ u "." ++ fp) /\
     ip <> [] /\ length fp = 2%nat /\ forallb is_digit (ip ++ fp) = true) /\
  (user_data_left_water_consumption s = VNone ->
   user_data_left_valve_mean s = VFloat f ->
   Prim2SF (1000 * f)%float = S754_finite sg m e ->
   exists ip fp,
     left_valve_summary s
       = Ok (u " @" ++ sign_prefix sg ++ ip ++ u "." ++ fp ++ microlitre_suffix) /\
     ip <> [] /\ length fp = 1%nat /\ forallb is_digit (ip ++ fp) = true).
Proof.
  intros Hz. rewrite SessionProps.left_valve_summary_steps. split.
  - intros -> -> Hf.
    destruct (format_f_finite_shape 2 f Hf) as (ip & fp & Hfmt & H1 & H2 & H3).
    exists ip, fp. split; [|repeat split; assumption].
    unfold consumption_step, valve_step. cbn [truthy]. rewrite Hz.
    cbn [negb]. rewrite SessionProps.percent_f_float. cbn [bind app].
    rewrite app_nil_r, Hfmt. reflexivity.
  - intros -> -> Hf.
    destruct (format_f_finite_shape 1 (1000 * f)%float Hf)
      as (ip & fp & Hfmt & H1 & H2 & H3).
    exists ip, fp. split; [|repeat split; assumption].
    unfold consumption_step, valve_step. cbn [truthy bind]. rewrite Hz.
    cbn [negb]. rewrite SessionProps.mul_int_1000_float. cbn [bind].
    rewrite SessionProps.percent_f_float. cbn [bind]. rewrite Hfmt.
    cbn [Nat.eqb]. rewrite <- !app_assoc. reflexivity.
Qed.

Lemma summary_numbers_are_fixed_point_witness :
  (exists ip fp,
     left_valve_summary (mirror session_named)
       = Ok (sign_prefix false ++ ip ++ u "." ++ fp) /\
     ip <> [] /\ length fp = 2%nat /\ forallb is_digit (ip ++ fp) = true) /\
  (exists ip fp,
     left_valve_summary session_mean_only
       = Ok (u " @" ++ sign_prefix false ++ ip ++ u "." ++ fp ++ microlitre_suffix) /\
     ip <> [] /\ length fp = 1%nat /\ forallb is_digit (ip ++ fp) = true).
Proof.
  split.
  - assert (Hz : (2.5 =? 0)%float = false) by reflexivity.
    apply (proj1 (@summary_numbers_are_fixed_point (mirror session_named) 2.5
                    false 5629499534213120%positive (-51)%Z Hz));
      vm_compute; reflexivity.
  - assert (Hz : (float_0_03 =? 0)%float = false) by reflexivity.
    apply (proj2 (@summary_numbers_are_fixed_point session_mean_only float_0_03
                    false 8444249301319680%positive (-48)%Z Hz));
      vm_compute; reflexivity.
Defined.

(** X16. A summary is the empty text exactly when neither of its two
    columns is true: [None], zero, [False] and empty texts or sequences
    all count as nothing recorded, and anything else either shows or
    raises. *)
Theorem summary_blank_iff_nothing_true (s : t) :
  (left_valve_summary s = Ok [] <->
   truthy (user_data_left_water_consumption s) = false /\
   truthy (user_data_left_valve_mean s) = false) /\
  (right_valve_summary s = Ok [] <->
   truthy (user_data_right_water_consumption s) = false /\
   truthy (user_data_right_valve_mean s) = false).
Proof.
  rewrite SessionProps.left_valve_summary_steps,
    SessionProps.right_valve_summary_steps.
  split; apply summary_blank_iff.
Qed.

Lemma summary_blank_iff_nothing_true_witness :
  left_valve_summary session_falsy_water = Ok [] /\
  right_valve_summary session_falsy_water = Ok [] /\
  truthy (user_data_left_water_consumption session_no_water) = false.
Proof.
  destruct (summary_blank_iff_nothing_true session_falsy_water) as [Hl Hr].
  destruct (summary_blank_iff_nothing_true session_no_water) as [Hn _].
  split; [|split].
  - apply (proj2 Hl). split; reflexivity.
  - apply (proj2 Hr). split; reflexivity.
  - apply (proj1 Hn). reflexivity.
Defined.

End SessionLaws.

(** ** The declared columns *)
Module SchemaProps.
Import Schema.

Ltac pick_in := repeat (try (left; reflexivity); right).

(** The instance dictionary of a Box has one entry per declared column, in
    the order of the declarations, before any other attribute. *)
Lemma box_dict_follows_columns (b : Box.t) :
  List.map fst (Box.__dict__ b)
  = List.map attname Schema.Box ++ List.map fst (Box.other_attrs b).
Proof. unfold Box.__dict__. rewrite map_app. reflexivity. Qed.



(** X18. Within each model the column names are pairwise distinct: no
    declaration silently replaces an earlier one of the same class. *)
Theorem column_names_distinct (m : string) (cols : list column) :
  In (m, cols) models -> NoDup (List.map attname cols).
Proof.
  intros Hm. unfold models in Hm. cbn [In] in Hm.
  repeat (destruct Hm as [Hm | Hm]; [injection Hm as _ <-|]);
    [ | | | | | | destruct Hm];
    cbn; repeat (constructor; [cbn; intuition discriminate|]); constructor.
Qed.

Lemma column_names_distinct_witness :
  NoDup (List.map attname Schema.Box).
Proof.
  apply (@column_names_distinct "Box"). unfold models. pick_in.
Defined.

(** X19. Every foreign key names a model that is declared earlier in the
    module than the model holding the key, so each class exists when a
    declaration refers to it. *)
Theorem foreign_keys_point_backwards
    (m : string) (cols : list column) (c : column) (target : string) :
  In (m, cols) models -> In c cols -> class c = ForeignKey target ->
  declared_before target m models = true.
Proof.
  intros Hm Hc Hk.
  assert (H : forallb (fun mc =>
                forallb (fun c => match class c with
                                  | ForeignKey t => declared_before t (fst mc) models
                                  | _ => true
                                  end) (snd mc)) models = true)
    by (vm_compute; reflexivity).
  rewrite forallb_forall in H. specialize (H (m, cols) Hm). cbn [snd fst] in H.
  rewrite forallb_forall in H. specialize (H c Hc). rewrite Hk in H. exact H.
Qed.

Lemma foreign_keys_point_backwards_witness :
  declared_before "Box" "Session" models = true.
Proof.
  apply (@foreign_keys_point_backwards "Session" Schema.Session
           (col "box" (ForeignKey "Box") true true) "Box").
  - unfold models. pick_in.
  - unfold Schema.Session. pick_in.
  - reflexivity.
Defined.

(** X20. The first column of every model is a text column called [name]
    that is neither nullable nor allowed blank: the attribute every
    [__str__] reads is always a declared, required column. *)
Theorem every_model_has_a_required_name (m : string) (cols : list column) :
  In (m, cols) models ->
  exists c n, hd_error cols = Some c /\ attname c = "name"%string /\
              class c = CharField n /\ null c = false /\ blank c = false.
Proof.
  intros Hm. unfold models in Hm. cbn [In] in Hm.
  repeat (destruct Hm as [Hm | Hm]; [injection Hm as _ <-|]);
    [ | | | | | | destruct Hm];
    eexists; eexists; repeat split.
Qed.

Lemma every_model_has_a_required_name_witness :
  exists c n, hd_error Schema.Board = Some c /\ attname c = "name"%string /\
              class c = CharField n /\ null c = false /\ blank c = false.
Proof.
  apply (@every_model_has_a_required_name "Board"). unfold models. pick_in.
Defined.

End SchemaProps.
